(** * ProjectMonitor ("Overwatch"): register service, monitor server, agent

    A shallow embedding of the three-party session protocol of the repository
    ([common/models.py], [common/database.py], [common/system_info.py],
    [register/main.py], [server/main.py], [client/main.py]) and the
    properties of its specification.

    Conventions.
    - A text frame is represented by the value [json.loads] yields for it
      ([None] when the text is not JSON); [json.dumps] followed by
      [json.loads] is the identity on these values.
    - A [datetime] is a count of microseconds; a Python [float] is a
      [spec_float] of the Standard Library.
    - What pydantic does beyond the exact-type cases, and the ISO-8601 codec of
      timestamps, are fields of a [Lib] record the development is parametric
      in.
    - Code between two [await]s runs atomically on the event loop, so every
      handler is one step on the state of its service. *)

From Stdlib Require Import ZArith SpecFloat.
From stdpp Require Import gmap strings list fin_maps sorting.

Open Scope string_scope.
Open Scope list_scope.
Set Warnings "-register-all,-clear-no-such-hyp".

(** ** Python values and exceptions *)

Definition float : Type := spec_float.
Definition datetime : Type := Z.

Inductive json : Type :=
| JNull
| JBool (b : bool)
| JInt (z : Z)
| JFloat (f : float)
| JStr (s : string)
| JList (l : list json)
| JDict (d : list (string * json)).

(** [d.get(k)] on a dict: the value bound to [k], else [None]. *)
Fixpoint dict_get (k : string) (d : list (string * json)) : json :=
  match d with
  | [] => JNull
  | (k', v) :: d' => if decide (k' = k) then v else dict_get k d'
  end.

Fixpoint dict_has (k : string) (d : list (string * json)) : bool :=
  match d with
  | [] => false
  | (k', _) :: d' => if decide (k' = k) then true else dict_has k d'
  end.

Inductive exn : Type :=
| JSONDecodeError
| TypeError
| ValidationError (model field : string)
| IntegrityError (column : string)
| ValueError
| AttributeError.

(** [str(e)], up to the wording of the libraries. *)
Definition exn_text (e : exn) : string :=
  match e with
  | JSONDecodeError => "Expecting value"
  | TypeError => "argument after ** must be a mapping"
  | ValidationError m f => "validation error for " +:+ m +:+ ": " +:+ f
  | IntegrityError c => "NOT NULL constraint failed: " +:+ c
  | ValueError => "list.remove(x): x not in list"
  | AttributeError => "object has no attribute"
  end.

Inductive result (A : Type) : Type :=
| Ok (a : A)
| Raise (e : exn).
Arguments Ok {A} a.
Arguments Raise {A} e.

Definition result_bind {A B} (m : result A) (k : A → result B) : result B :=
  match m with
  | Ok a => k a
  | Raise e => Raise e
  end.

Notation "'try!' x '<-' m ';;' k" := (result_bind m (fun x => k))
  (at level 100, x name, m at next level, k at level 200, right associativity).

(** ** What the libraries decide

    pydantic validates in lax mode: a [bool], [int] or [float] field also
    accepts some values of other types.  Those coercions, the validation of a
    [datetime] field and [datetime.isoformat] belong to the libraries. *)
Record Lib : Type := {
  lax_bool : json → option bool;
  lax_int : json → option Z;
  lax_float : json → option float;
  validate_datetime : json → option datetime;
  isoformat : datetime → string;
}.

(** *** An instance

    ISO-8601 text of a time in UTC, as [datetime.isoformat()] prints it and
    as pydantic reads it back.  The development does not depend on it; the
    concrete runs below are evaluated with it. *)

Module iso8601.
Local Open Scope Z_scope.

(** Days since 1970-01-01 of a date of the proleptic Gregorian calendar,
    and back. *)
Definition days_from_civil (y m d : Z) : Z :=
  let y := if m <=? 2 then y - 1 else y in
  let era := y / 400 in
  let yoe := y - era * 400 in
  let doy := (153 * (if m >? 2 then m - 3 else m + 9) + 2) / 5 + d - 1 in
  let doe := yoe * 365 + yoe / 4 - yoe / 100 + doy in
  era * 146097 + doe - 719468.

Definition civil_from_days (z : Z) : Z * Z * Z :=
  let z := z + 719468 in
  let era := z / 146097 in
  let doe := z - era * 146097 in
  let yoe := (doe - doe / 1460 + doe / 36524 - doe / 146096) / 365 in
  let doy := doe - (365 * yoe + yoe / 4 - yoe / 100) in
  let mp := (5 * doy + 2) / 153 in
  let d := doy - (153 * mp + 2) / 5 + 1 in
  let m := if mp <? 10 then mp + 3 else mp - 9 in
  let y := yoe + era * 400 in
  (if m <=? 2 then y + 1 else y, m, d).

(** [n] in [width] decimal digits. *)
Fixpoint digits (width : nat) (n : Z) : string :=
  match width with
  | O => ""
  | S w =>
      digits w (n / 10)
      +:+ String (Ascii.ascii_of_nat (48 + Z.to_nat (n mod 10))) ""
  end.

Fixpoint number_from (acc : Z) (s : string) : option Z :=
  match s with
  | "" => Some acc
  | String a s' =>
      let c := Z.of_nat (Ascii.nat_of_ascii a) in
      if (48 <=? c) && (c <=? 57) then number_from (acc * 10 + (c - 48)) s'
      else None
  end.

Definition number (s : string) : option Z :=
  match s with "" => None | _ => number_from 0 s end.

(** [datetime.isoformat()] of a time in UTC: the fraction is printed
    unless it is zero. *)
Definition isoformat (t : Z) : string :=
  let days := t / 86400000000 in
  let rest := t mod 86400000000 in
  let '(y, m, d) := civil_from_days days in
  let secs := rest / 1000000 in
  let frac := rest mod 1000000 in
  digits 4 y +:+ "-" +:+ digits 2 m +:+ "-" +:+ digits 2 d +:+ "T"
  +:+ digits 2 (secs / 3600) +:+ ":" +:+ digits 2 (secs / 60 mod 60)
  +:+ ":" +:+ digits 2 (secs mod 60)
  +:+ (if frac =? 0 then "" else "." +:+ digits 6 frac)
  +:+ "+00:00".

Definition field (s : string) (pos len : nat) : option Z :=
  number (String.substring pos len s).

Definition sep (s : string) (pos : nat) (c : string) : option unit :=
  if decide (String.substring pos 1 s = c) then Some () else None.

(** The reading of that format. *)
Definition parse (s : string) : option Z :=
  y ← field s 0 4; _ ← sep s 4 "-";
  m ← field s 5 2; _ ← sep s 7 "-";
  d ← field s 8 2; _ ← sep s 10 "T";
  hh ← field s 11 2; _ ← sep s 13 ":";
  mm ← field s 14 2; _ ← sep s 16 ":";
  ss ← field s 17 2;
  frac ← (if decide (String.substring 19 1 s = ".")
          then f ← field s 20 6;
               if decide (String.substring 26 7 s = "+00:00") then Some f
               else None
          else if decide (String.substring 19 7 s = "+00:00") then Some 0
               else None);
  if (1 <=? m) && (m <=? 12) && (1 <=? d) && (d <=? 31)
     && (hh <? 24) && (mm <? 60) && (ss <? 60)
  then Some ((days_from_civil y m d * 86400 + hh * 3600 + mm * 60 + ss)
             * 1000000 + frac)
  else None.
End iso8601.

(** The library that coerces nothing, reads a number as seconds since the
    epoch, or as milliseconds when it is too large for seconds, and reads
    and prints ISO-8601 text. *)
Definition strict_lib : Lib := {|
  lax_bool := λ _, None;
  lax_int := λ _, None;
  lax_float := λ _, None;
  validate_datetime := λ j,
    match j with
    | JInt z =>
        if (Z.abs z <=? 20000000000)%Z then Some (z * 1000000)%Z
        else Some (z * 1000)%Z
    | JStr s => iso8601.parse s
    | _ => None
    end;
  isoformat := iso8601.isoformat;
|}.

Section fields.
Context (L : Lib).

Definition as_str (j : json) : option string :=
  match j with JStr s => Some s | _ => None end.

Definition as_bool (j : json) : option bool :=
  match j with JBool b => Some b | _ => lax_bool L j end.

Definition as_int (j : json) : option Z :=
  match j with JInt z => Some z | _ => lax_int L j end.

Definition as_float (j : json) : option float :=
  match j with JFloat f => Some f | _ => lax_float L j end.

Definition as_dict (j : json) : option (list (string * json)) :=
  match j with JDict d => Some d | _ => None end.

(** A required field [f: T] of model [m]. *)
Definition required {A} (m f : string) (conv : json → option A)
    (d : list (string * json)) : result A :=
  if dict_has f d then
    match conv (dict_get f d) with
    | Some a => Ok a
    | None => Raise (ValidationError m f)
    end
  else Raise (ValidationError m f).

(** A field [f: T = dflt]. *)
Definition defaulted {A} (m f : string) (conv : json → option A) (dflt : A)
    (d : list (string * json)) : result A :=
  if dict_has f d then
    match conv (dict_get f d) with
    | Some a => Ok a
    | None => Raise (ValidationError m f)
    end
  else Ok dflt.

(** A field [f: Optional[T] = None]. *)
Definition optional {A} (m f : string) (conv : json → option A)
    (d : list (string * json)) : result (option A) :=
  match dict_get f d with
  | JNull => Ok None
  | j => match conv j with
         | Some a => Ok (Some a)
         | None => Raise (ValidationError m f)
         end
  end.

(** A model built from the keywords of [x]: [x] must be a mapping. *)
Definition kwargs (j : json) : result (list (string * json)) :=
  match j with
  | JDict d => Ok d
  | _ => Raise TypeError
  end.
End fields.

(** ** [common/models.py] *)

Module Client.
Record t : Type := mk { name : string; ip : string; online : bool }.

(** The model [Client] built from the keywords of [client_data]:
    [name: str], [ip: str],
    [online: bool = True]. *)
Definition validate (L : Lib) (client_data : json) : result t :=
  try! d <- kwargs client_data ;;
  try! n <- required "Client" "name" as_str d ;;
  try! i <- required "Client" "ip" as_str d ;;
  try! o <- defaulted "Client" "online" (as_bool L) true d ;;
  Ok (mk n i o).

Definition model_dump (c : t) : json :=
  JDict [("name", JStr (name c)); ("ip", JStr (ip c));
         ("online", JBool (online c))].

Definition set_online (b : bool) (c : t) : t := mk (name c) (ip c) b.
End Client.

Module Server.
Record t : Type := mk { id : option Z; ip : string }.

(** [Server(ip=ip)]: [id: Optional[int] = None], [ip: str]. *)
Definition of_ip (ip : json) : result t :=
  match as_str ip with
  | Some s => Ok (mk None s)
  | None => Raise (ValidationError "Server" "ip")
  end.

Definition validate (L : Lib) (server_data : json) : result t :=
  try! d <- kwargs server_data ;;
  try! i <- optional "Server" "id" (as_int L) d ;;
  try! a <- required "Server" "ip" as_str d ;;
  Ok (mk i a).

Definition model_dump (s : t) : json :=
  JDict [("id", match id s with Some z => JInt z | None => JNull end);
         ("ip", JStr (ip s))].
End Server.

Module Report.
Record t : Type := mk {
  name : string;
  os : string;
  load : float;
  cpus : Z;
  memory_total : option float;
  memory_used : option float;
  memory_percent : option float;
  disk_total : option float;
  disk_used : option float;
  disk_percent : option float;
  timestamp : option datetime;
}.

(** The model [Report] built from the keywords of [report_data]. *)
Definition validate (L : Lib) (report_data : json) : result t :=
  try! d <- kwargs report_data ;;
  try! n <- required "Report" "name" as_str d ;;
  try! o <- required "Report" "os" as_str d ;;
  try! l <- required "Report" "load" (as_float L) d ;;
  try! c <- required "Report" "cpus" (as_int L) d ;;
  try! mt <- optional "Report" "memory_total" (as_float L) d ;;
  try! mu <- optional "Report" "memory_used" (as_float L) d ;;
  try! mp <- optional "Report" "memory_percent" (as_float L) d ;;
  try! dt <- optional "Report" "disk_total" (as_float L) d ;;
  try! du <- optional "Report" "disk_used" (as_float L) d ;;
  try! dp <- optional "Report" "disk_percent" (as_float L) d ;;
  try! ts <- optional "Report" "timestamp" (validate_datetime L) d ;;
  Ok (mk n o l c mt mu mp dt du dp ts).

Definition dump_float (f : option float) : json :=
  match f with Some x => JFloat x | None => JNull end.

(** [report.model_dump()] with [ts] in the place of the timestamp:
    [model_dump] leaves a [datetime] object there, which
    [create_client_report] replaces by its [isoformat()]. *)
Definition model_dump_with (ts : json) (r : t) : list (string * json) :=
  [("name", JStr (name r)); ("os", JStr (os r)); ("load", JFloat (load r));
   ("cpus", JInt (cpus r));
   ("memory_total", dump_float (memory_total r));
   ("memory_used", dump_float (memory_used r));
   ("memory_percent", dump_float (memory_percent r));
   ("disk_total", dump_float (disk_total r));
   ("disk_used", dump_float (disk_used r));
   ("disk_percent", dump_float (disk_percent r));
   ("timestamp", ts)].

(** The dict of [to_db_dict]; [now] is [datetime.utcnow()]. *)
Record db_dict : Type := mk_db_dict {
  d_name : string;
  d_os : string;
  d_load : float;
  d_cpus : Z;
  d_memory_total : option float;
  d_memory_used : option float;
  d_memory_percent : option float;
  d_disk_total : option float;
  d_disk_used : option float;
  d_disk_percent : option float;
  d_timestamp : datetime;
}.

(** One of the six memory and disk fields is [None]. *)
Definition lacks_metrics (r : t) : Prop :=
  memory_total r = None ∨ memory_used r = None ∨ memory_percent r = None
  ∨ disk_total r = None ∨ disk_used r = None ∨ disk_percent r = None.

Definition to_db_dict (now : datetime) (r : t) : db_dict :=
  mk_db_dict (name r) (os r) (load r) (cpus r)
    (memory_total r) (memory_used r) (memory_percent r)
    (disk_total r) (disk_used r) (disk_percent r)
    (default now (timestamp r)).
End Report.

Module CommandType.
Definition CLIENT_REGIST : string := "CLIENT_REGIST".
Definition CLIENT_ONLINE : string := "CLIENT_ONLINE".
Definition CLIENT_REPORT : string := "CLIENT_REPORT".
Definition SERVER_ONLINE : string := "SERVER_ONLINE".
End CommandType.

Module Command.
Record t : Type := mk { type : string; contents : list (string * json) }.

(** The model [Command] built from the keywords of [command_data]:
    [type: str], [contents: dict]. *)
Definition validate (command_data : json) : result t :=
  try! d <- kwargs command_data ;;
  try! ty <- required "Command" "type" as_str d ;;
  try! co <- required "Command" "contents" as_dict d ;;
  Ok (mk ty co).

Definition model_dump (c : t) : json :=
  JDict [("type", JStr (type c)); ("contents", JDict (contents c))].

Definition create_client_register (client : Client.t) : t :=
  mk "CLIENT_REGIST" [("client", Client.model_dump client)].

Definition create_client_online (client : Client.t) : t :=
  mk "CLIENT_ONLINE" [("client", Client.model_dump client)].

(** The timestamp of the dumped report is a [datetime] or [None]; a
    [datetime] is truthy, and is replaced by its ISO-8601 text. *)
Definition create_client_report (L : Lib) (report : Report.t) : t :=
  let ts := match Report.timestamp report with
            | Some d => JStr (isoformat L d)
            | None => JNull
            end in
  mk "CLIENT_REPORT" [("report", JDict (Report.model_dump_with ts report))].

Definition create_server_online (server : Server.t) : t :=
  mk "SERVER_ONLINE" [("ip", JStr (Server.ip server))].
End Command.

(** The text frame a party sends for a command:
    [json.dumps(command.model_dump())]. *)
Definition frame (c : Command.t) : option json := Some (Command.model_dump c).

(** ** [common/database.py]

    Table [clients] has a unique, non-null [name]: it is a finite map from
    the name to the other columns.  Table [records] is the list of its rows
    in insertion order.  Commits succeed unless a constraint of the schema
    is violated. *)

Module DBClient.
Record t : Type := mk {
  id : Z;
  ip : string;
  online : bool;
  created_at : datetime;
  last_seen : datetime;
}.
End DBClient.

Module DBRecord.
Record t : Type := mk {
  id : Z;
  name : string;
  os : string;
  load : float;
  cpus : Z;
  memory_total : float;
  memory_used : float;
  memory_percent : float;
  disk_total : float;
  disk_used : float;
  disk_percent : float;
  timestamp : datetime;
}.
End DBRecord.

Module ClientDAO.
(** The integer primary key of a new row: one more than the largest. *)
Definition next_id (tbl : gmap string DBClient.t) : Z :=
  1 + map_fold (λ _ r acc, Z.max (DBClient.id r) acc) 0%Z tbl.

Definition get_all (tbl : gmap string DBClient.t)
    : list (string * DBClient.t) :=
  map_to_list tbl.

Definition get_online (tbl : gmap string DBClient.t)
    : list (string * DBClient.t) :=
  map_to_list (filter (λ kv, DBClient.online kv.2 = true) tbl).

Definition get_by_name (tbl : gmap string DBClient.t) (name : string)
    : option DBClient.t :=
  tbl !! name.

Definition create_or_update (tbl : gmap string DBClient.t)
    (name ip : string) (online : bool) (utcnow : datetime)
    : gmap string DBClient.t :=
  match tbl !! name with
  | Some client =>
      <[name := DBClient.mk (DBClient.id client) ip online
                  (DBClient.created_at client) utcnow]> tbl
  | None =>
      <[name := DBClient.mk (next_id tbl) ip online utcnow utcnow]> tbl
  end.

Definition set_offline (tbl : gmap string DBClient.t) (name : string)
    : gmap string DBClient.t * bool :=
  match tbl !! name with
  | Some client =>
      (<[name := DBClient.mk (DBClient.id client) (DBClient.ip client) false
                   (DBClient.created_at client) (DBClient.last_seen client)]>
         tbl, true)
  | None => (tbl, false)
  end.

Definition delete (tbl : gmap string DBClient.t) (name : string)
    : gmap string DBClient.t * bool :=
  match tbl !! name with
  | Some _ => (base.delete name tbl, true)
  | None => (tbl, false)
  end.
End ClientDAO.

Module RecordDAO.
Definition next_id (tbl : list DBRecord.t) : Z :=
  1 + foldr (λ r acc, Z.max (DBRecord.id r) acc) 0%Z tbl.

(** A column declared [nullable=False] refuses [None]. *)
Definition not_null {A} (column : string) (v : option A) : result A :=
  match v with
  | Some a => Ok a
  | None => Raise (IntegrityError column)
  end.

(** [create]: the row is built from the dict and committed; the commit
    fails on the first non-nullable column that holds [None], and then
    nothing is stored. *)
Definition create (tbl : list DBRecord.t) (record_data : Report.db_dict)
    : result (list DBRecord.t) :=
  try! mt <- not_null "records.memory_total"
               (Report.d_memory_total record_data) ;;
  try! mu <- not_null "records.memory_used"
               (Report.d_memory_used record_data) ;;
  try! mp <- not_null "records.memory_percent"
               (Report.d_memory_percent record_data) ;;
  try! dt <- not_null "records.disk_total"
               (Report.d_disk_total record_data) ;;
  try! du <- not_null "records.disk_used"
               (Report.d_disk_used record_data) ;;
  try! dp <- not_null "records.disk_percent"
               (Report.d_disk_percent record_data) ;;
  Ok (tbl ++ [DBRecord.mk (next_id tbl)
                (Report.d_name record_data) (Report.d_os record_data)
                (Report.d_load record_data) (Report.d_cpus record_data)
                mt mu mp dt du dp (Report.d_timestamp record_data)]).

(** The grouped subquery of [get_all_latest]: one row
    [(name, max(timestamp))] for each name of the table. *)
Definition max_timestamp (name : string) (tbl : list DBRecord.t)
    : option datetime :=
  foldr (λ r acc,
           if decide (DBRecord.name r = name) then
             match acc with
             | Some m => Some (Z.max (DBRecord.timestamp r) m)
             | None => Some (DBRecord.timestamp r)
             end
           else acc) None tbl.

Definition subquery (tbl : list DBRecord.t) : list (string * datetime) :=
  omap (λ n, pair n <$> max_timestamp n tbl)
       (remove_dups (DBRecord.name <$> tbl)).

(** [get_all_latest]: the join of the table with the subquery on equal
    name and equal timestamp.  (The method reaches the SQL function
    through [db.func], which a plain SQLAlchemy session does not provide;
    this is the query the statement denotes.) *)
Definition get_all_latest (tbl : list DBRecord.t) : list DBRecord.t :=
  r ← tbl;
  g ← subquery tbl;
  if decide (DBRecord.name r = g.1 ∧ DBRecord.timestamp r = g.2)
  then [r] else [].

(** The same query as the specification words it, to compare with: of the
    samples of an agent the one with the highest timestamp, and of two that
    share it the one inserted later; one sample for each name. *)
Definition spec_most_recent (name : string) (tbl : list DBRecord.t)
    : option DBRecord.t :=
  foldr (λ r later,
           if decide (DBRecord.name r = name) then
             match later with
             | Some best =>
                 if (DBRecord.timestamp best <? DBRecord.timestamp r)%Z
                 then Some r else Some best
             | None => Some r
             end
           else later) None tbl.

Definition spec_most_recent_per_agent (tbl : list DBRecord.t)
    : list DBRecord.t :=
  omap (λ n, spec_most_recent n tbl) (remove_dups (DBRecord.name <$> tbl)).

(** [order_by(Record.timestamp.desc())].  Which of two rows with the same
    timestamp comes first is the database's choice; the sort here is one
    such choice, and nothing below depends on it. *)
Definition newer_first (r1 r2 : DBRecord.t) : Prop :=
  (DBRecord.timestamp r2 ≤ DBRecord.timestamp r1)%Z.

#[global] Instance newer_first_dec : RelDecision newer_first.
Proof. intros r1 r2. unfold newer_first. apply _. Defined.

Definition order_by_timestamp_desc (rows : list DBRecord.t)
    : list DBRecord.t :=
  merge_sort newer_first rows.

Definition get_by_client (tbl : list DBRecord.t) (name : string)
    (limit : nat) : list DBRecord.t :=
  take limit
    (order_by_timestamp_desc (filter (λ r, DBRecord.name r = name) tbl)).

Definition get_by_timerange (tbl : list DBRecord.t) (name : string)
    (start_time end_time : datetime) : list DBRecord.t :=
  order_by_timestamp_desc
    (filter (λ r, DBRecord.name r = name
                  ∧ (start_time ≤ DBRecord.timestamp r)%Z
                  ∧ (DBRecord.timestamp r ≤ end_time)%Z) tbl).

Definition get_latest_by_client (tbl : list DBRecord.t) (name : string)
    : option DBRecord.t :=
  head (order_by_timestamp_desc (filter (λ r, DBRecord.name r = name) tbl)).
End RecordDAO.

(** [Client.from_db] and [Report.from_db] of [common/models.py]: the
    models read back from rows. *)
Definition Client_from_db (name : string) (db_client : DBClient.t)
    : Client.t :=
  Client.mk name (DBClient.ip db_client) (DBClient.online db_client).


(** Table [configs] has a unique, non-null [key]: a finite map from the key
    to the other columns. *)
Module DBConfig.
Record t : Type := mk {
  id : Z;
  value : string;
  description : option string;
  updated_at : option datetime;
}.
End DBConfig.

Module ConfigDAO.
Definition next_id (tbl : gmap string DBConfig.t) : Z :=
  1 + map_fold (λ _ r acc, Z.max (DBConfig.id r) acc) 0%Z tbl.

Definition get_all (tbl : gmap string DBConfig.t)
    : list (string * DBConfig.t) :=
  map_to_list tbl.

Definition get_by_key (tbl : gmap string DBConfig.t) (key : string)
    : option DBConfig.t :=
  tbl !! key.

(** [set(db, key, value, description=None)].  A row that is there gets the
    value and the description of the call; [updated_at] has
    [onupdate=datetime.utcnow], which the ORM applies when the commit
    writes a change and not when both columns already hold what is
    assigned.  A new row gets [updated_at] from the column default. *)
Definition set (tbl : gmap string DBConfig.t) (key value : string)
    (description : option string) (utcnow : datetime)
    : gmap string DBConfig.t :=
  match tbl !! key with
  | Some config =>
      if decide (DBConfig.value config = value
                 ∧ DBConfig.description config = description)
      then tbl
      else <[key := DBConfig.mk (DBConfig.id config) value description
                      (Some utcnow)]> tbl
  | None =>
      <[key := DBConfig.mk (next_id tbl) value description (Some utcnow)]> tbl
  end.

Definition delete (tbl : gmap string DBConfig.t) (key : string)
    : gmap string DBConfig.t * bool :=
  match tbl !! key with
  | Some _ => (base.delete key tbl, true)
  | None => (tbl, false)
  end.
End ConfigDAO.

(** ** What the two services share *)

Inductive level : Type := INFO | WARNING | ERROR.

(** [json.loads(data)]. *)
Definition json_loads (data : option json) : result json :=
  match data with
  | Some j => Ok j
  | None => Raise JSONDecodeError
  end.

(** [json.dumps({"error": str(e)})]. *)
Definition error_payload (e : exn) : json :=
  JDict [("error", JStr (exn_text e))].

(** [l.remove(x)]: drops the first occurrence, [ValueError] when there is
    none. *)
Fixpoint list_remove (x : nat) (l : list nat) : result (list nat) :=
  match l with
  | [] => Raise ValueError
  | y :: l' =>
      if decide (y = x) then Ok l'
      else try! r <- list_remove x l' ;; Ok (y :: r)
  end.

(** A [dict] whose order of insertion is observed: [d[k] = v] replaces the
    value of a known key where it stands and appends a new key. *)
Fixpoint setitem {V} (k : string) (v : V) (d : list (string * V))
    : list (string * V) :=
  match d with
  | [] => [(k, v)]
  | (k', v') :: d' =>
      if decide (k' = k) then (k, v) :: d' else (k', v') :: setitem k v d'
  end.

Fixpoint getitem {V} (k : string) (d : list (string * V)) : option V :=
  match d with
  | [] => None
  | (k', v) :: d' => if decide (k' = k) then Some v else getitem k d'
  end.

(** ** [register/main.py] *)

Module register.
Record state : Type := mk {
  registered_clients : list (string * Client.t);
  registered_servers : list (string * Server.t);
  active_connections : list nat;
  endpoints : gset nat;
  next_websocket : nat;
  sent : list (nat * json);
  log : list (level * string);
}.

Definition initial : state := mk [] [] [] ∅ 0 [] [].

Inductive event : Type :=
| Accept
| Receive (websocket : nat) (data : option json)
| Disconnect (websocket : nat).

Definition logging (lvl : level) (msg : string) (st : state) : state :=
  mk (registered_clients st) (registered_servers st)
     (active_connections st) (endpoints st) (next_websocket st)
     (sent st) (log st ++ [(lvl, msg)]).

(** [manager.send_personal_message(message, websocket)]. *)
Definition send_personal_message (message : json) (websocket : nat)
    (st : state) : state :=
  mk (registered_clients st) (registered_servers st)
     (active_connections st) (endpoints st) (next_websocket st)
     (sent st ++ [(websocket, message)]) (log st).

Definition store_client (client : Client.t) (st : state) : state :=
  mk (setitem (Client.name client) client (registered_clients st))
     (registered_servers st)
     (active_connections st) (endpoints st) (next_websocket st)
     (sent st) (log st).

Definition store_server (ip : string) (server : Server.t) (st : state)
    : state :=
  mk (registered_clients st)
     (setitem ip server (registered_servers st))
     (active_connections st) (endpoints st) (next_websocket st)
     (sent st) (log st).

(** [manager.connect(websocket)] and the start of the endpoint. *)
Definition connect (st : state) : state :=
  mk (registered_clients st) (registered_servers st)
     (active_connections st ++ [next_websocket st])
     ({[next_websocket st]} ∪ endpoints st) (S (next_websocket st))
     (sent st) (log st).

Section handlers.
Context (L : Lib).

(** The body of the inner [try] of [websocket_endpoint]. *)
Definition process (websocket : nat) (data : option json) (st : state)
    : result state :=
  try! command_data <- json_loads data ;;
  try! command <- Command.validate command_data ;;
  if decide (Command.type command = CommandType.CLIENT_REGIST) then
    try! client <-
      Client.validate L (dict_get "client" (Command.contents command)) ;;
    let st := store_client client st in
    let st := logging INFO ("Client registered: " +:+ Client.name client)
                st in
    match registered_servers st with
    | (_, server) :: _ =>
        Ok (send_personal_message (Server.model_dump server) websocket st)
    | [] => Ok st
    end
  else if decide (Command.type command = CommandType.CLIENT_ONLINE) then
    try! client <-
      Client.validate L (dict_get "client" (Command.contents command)) ;;
    let st := store_client client st in
    Ok (logging INFO ("Client online: " +:+ Client.name client) st)
  else if decide (Command.type command = CommandType.SERVER_ONLINE) then
    let ip := dict_get "ip" (Command.contents command) in
    try! server <- Server.of_ip ip ;;
    let st := store_server (Server.ip server) server st in
    Ok (logging INFO ("Server online: " +:+ Server.ip server) st)
  else
    Ok (logging WARNING
          ("Unknown command type: " +:+ Command.type command) st).

(** One turn of the [while True] loop on a received text. *)
Definition receive (websocket : nat) (data : option json) (st : state)
    : state :=
  let st := logging INFO "Received message" st in
  match process websocket data st with
  | Ok st' => st'
  | Raise e =>
      let st := logging ERROR
                  ("Error processing command: " +:+ exn_text e) st in
      send_personal_message (error_payload e) websocket st
  end.

(** The handler of [WebSocketDisconnect]: [manager.disconnect] and a
    log line; the endpoint returns (or dies of the [ValueError]). *)
Definition disconnect (websocket : nat) (st : state) : state :=
  match list_remove websocket (active_connections st) with
  | Ok conns =>
      logging INFO "WebSocket disconnected"
        (mk (registered_clients st) (registered_servers st) conns
            (endpoints st ∖ {[websocket]}) (next_websocket st)
            (sent st) (log st))
  | Raise _ =>
      mk (registered_clients st) (registered_servers st)
         (active_connections st)
         (endpoints st ∖ {[websocket]}) (next_websocket st)
         (sent st) (log st)
  end.

(** An event reaches the endpoint that serves its channel; a channel
    without a running endpoint has nobody to handle it. *)
Definition step (st : state) (e : event) : state :=
  match e with
  | Accept => connect st
  | Receive ws data =>
      if decide (ws ∈ endpoints st) then receive ws data st else st
  | Disconnect ws =>
      if decide (ws ∈ endpoints st) then disconnect ws st else st
  end.

Definition run (st : state) (evs : list event) : state :=
  foldl step st evs.

(** The exception that the decoding of a received text raises, if it
    raises one: the protocol errors of the register channel. *)
Definition malformed (data : option json) : option exn :=
  match json_loads data with
  | Raise e => Some e
  | Ok command_data =>
      match Command.validate command_data with
      | Raise e => Some e
      | Ok command =>
          if decide (Command.type command = CommandType.CLIENT_REGIST
                     ∨ Command.type command = CommandType.CLIENT_ONLINE)
          then
            match Client.validate L
                    (dict_get "client" (Command.contents command)) with
            | Raise e => Some e
            | Ok _ => None
            end
          else if decide (Command.type command
                          = CommandType.SERVER_ONLINE)
          then
            match Server.of_ip
                    (dict_get "ip" (Command.contents command)) with
            | Raise e => Some e
            | Ok _ => None
            end
          else None
      end
  end.

(** The name of the client that the message of an event stores in the
    directory, if it stores one. *)
Definition announced (e : event) : option string :=
  match e with
  | Receive _ (Some command_data) =>
      match Command.validate command_data with
      | Ok command =>
          if decide (Command.type command = CommandType.CLIENT_REGIST
                     ∨ Command.type command = CommandType.CLIENT_ONLINE)
          then
            match Client.validate L
                    (dict_get "client" (Command.contents command)) with
            | Ok client => Some (Client.name client)
            | Raise _ => None
            end
          else None
      | Raise _ => None
      end
  | _ => None
  end.
End handlers.

(** [GET /clients], [GET /servers] and [GET /client/{client_name}]. *)
Definition get_clients (st : state) : json :=
  JDict [("clients", JList (Client.model_dump <$> (registered_clients st).*2))].

Definition get_servers (st : state) : json :=
  JDict [("servers", JList (Server.model_dump <$> (registered_servers st).*2))].

Definition get_client (client_name : string) (st : state) : json :=
  match getitem client_name (registered_clients st) with
  | Some client => Client.model_dump client
  | None => JDict [("error", JStr "Client not found")]
  end.

(** [ConnectionManager.broadcast], run without another task in between.
    The [for] loop reads the list by position while the handler of a failed
    send removes from it: [position] is the index of the iterator,
    [accepts] tells for which channels [send_text] succeeds.  The loop ends
    within as many turns as the list is long. *)
Fixpoint broadcast_loop (turns : nat) (accepts : nat → bool) (message : json)
    (position : nat) (conns : list nat) (out : list (nat * json))
    : list nat * list (nat * json) :=
  match turns with
  | O => (conns, out)
  | S turns' =>
      match conns !! position with
      | None => (conns, out)
      | Some connection =>
          if accepts connection then
            broadcast_loop turns' accepts message (S position) conns
              (out ++ [(connection, message)])
          else
            match list_remove connection conns with
            | Ok conns' =>
                broadcast_loop turns' accepts message (S position) conns' out
            | Raise _ => (conns, out)
            end
      end
  end.

Definition broadcast (accepts : nat → bool) (message : json) (st : state)
    : state :=
  let '(conns, out) :=
    broadcast_loop (length (active_connections st)) accepts message 0
      (active_connections st) [] in
  mk (registered_clients st) (registered_servers st) conns (endpoints st)
     (next_websocket st) (sent st ++ out) (log st).

(** What the same loop does when read off the list from its head: a channel
    that refuses the message is dropped and the channel after it is passed
    over. *)
Fixpoint broadcast_walk (accepts : nat → bool) (message : json)
    (conns : list nat) : list nat * list (nat * json) :=
  match conns with
  | [] => ([], [])
  | connection :: rest =>
      if accepts connection then
        let '(kept, out) := broadcast_walk accepts message rest in
        (connection :: kept, (connection, message) :: out)
      else
        match rest with
        | [] => ([], [])
        | passed :: rest' =>
            let '(kept, out) := broadcast_walk accepts message rest' in
            (passed :: kept, out)
        end
  end.

(** The manager's list and the running endpoints describe the same
    channels, each once, all older than the next one. *)
Definition channels_ok (st : state) : Prop :=
  NoDup (active_connections st)
  ∧ (∀ ws, ws ∈ active_connections st ↔ ws ∈ endpoints st)
  ∧ (∀ ws, ws ∈ active_connections st → ws < next_websocket st).

(** Every entry of the two directories stands under its own name or
    address, and a monitor has no id. *)
Definition directories_ok (st : state) : Prop :=
  (∀ k client, (k, client) ∈ registered_clients st → Client.name client = k)
  ∧ (∀ k server, (k, server) ∈ registered_servers st →
                 server = Server.mk None k)
  ∧ NoDup (registered_clients st).*1
  ∧ NoDup (registered_servers st).*1.
End register.

(** ** [server/main.py] *)

Module server.
(** [registered_clients] and [offline_clients] are the module's caches;
    [active_connections] is the list of the [ConnectionManager];
    [endpoints] holds, for each running [websocket_endpoint], its local
    [client_name]; [clients] and [records] are the tables of the
    database.

    The [Client] object that the disconnect handler marks offline is the
    one [registered_clients] holds, and it is the object appended to
    [offline_clients]: the cache entry is rewritten with the new flag and
    the same value is appended.  No later code mutates an object of
    [offline_clients], so sharing is not observable beyond this. *)
Record state : Type := mk {
  registered_clients : gmap string Client.t;
  offline_clients : list Client.t;
  active_connections : list nat;
  endpoints : gmap nat (option string);
  next_websocket : nat;
  clients : gmap string DBClient.t;
  records : list DBRecord.t;
  sent : list (nat * json);
  log : list (level * string);
}.

Definition initial : state := mk ∅ [] [] ∅ 0 ∅ [] [] [].

Inductive event : Type :=
| Accept
| Receive (websocket : nat) (data : option json) (utcnow : datetime)
| Disconnect (websocket : nat)
| DeleteClient (name : string).

Definition logging (lvl : level) (msg : string) (st : state) : state :=
  mk (registered_clients st) (offline_clients st) (active_connections st)
     (endpoints st) (next_websocket st) (clients st) (records st)
     (sent st) (log st ++ [(lvl, msg)]).

(** [manager.send_personal_message(message, websocket)]. *)
Definition send_personal_message (message : json) (websocket : nat)
    (st : state) : state :=
  mk (registered_clients st) (offline_clients st) (active_connections st)
     (endpoints st) (next_websocket st) (clients st) (records st)
     (sent st ++ [(websocket, message)]) (log st).

Definition with_cache (reg : gmap string Client.t) (off : list Client.t)
    (st : state) : state :=
  mk reg off (active_connections st)
     (endpoints st) (next_websocket st) (clients st) (records st)
     (sent st) (log st).

Definition with_clients (tbl : gmap string DBClient.t) (st : state)
    : state :=
  mk (registered_clients st) (offline_clients st) (active_connections st)
     (endpoints st) (next_websocket st) tbl (records st)
     (sent st) (log st).

Definition with_records (tbl : list DBRecord.t) (st : state) : state :=
  mk (registered_clients st) (offline_clients st) (active_connections st)
     (endpoints st) (next_websocket st) (clients st) tbl
     (sent st) (log st).

Definition with_channels (conns : list nat)
    (eps : gmap nat (option string)) (st : state) : state :=
  mk (registered_clients st) (offline_clients st) conns
     eps (next_websocket st) (clients st) (records st)
     (sent st) (log st).

(** [c for c in offline_clients if c.name != name]. *)
Definition without (name : string) (l : list Client.t) : list Client.t :=
  filter (λ c, Client.name c ≠ name) l.

(** [manager.connect(websocket)] and the start of the endpoint, whose
    [client_name] is [None]. *)
Definition connect (st : state) : state :=
  mk (registered_clients st) (offline_clients st)
     (active_connections st ++ [next_websocket st])
     (<[next_websocket st := None]> (endpoints st))
     (S (next_websocket st)) (clients st) (records st)
     (sent st) (log st).

(** Truth value of [client_name]: [None] and the empty string are
    false. *)
Definition truthy (client_name : option string) : option string :=
  match client_name with
  | Some "" => None
  | other => other
  end.

Section handlers.
Context (L : Lib).

(** The branch of [CLIENT_ONLINE]. *)
Definition client_online (websocket : nat)
    (contents : list (string * json)) (utcnow : datetime) (st : state)
    : result state :=
  try! client <- Client.validate L (dict_get "client" contents) ;;
  let name := Client.name client in
  let st := with_cache (<[name := client]> (registered_clients st))
              (offline_clients st) st in
  let st := with_channels (active_connections st)
              (<[websocket := Some name]> (endpoints st)) st in
  let st := with_clients
              (ClientDAO.create_or_update (clients st) name
                 (Client.ip client) true utcnow) st in
  let st := logging INFO ("Updated client " +:+ name +:+ " in database")
              st in
  let st := with_cache (registered_clients st)
              (without name (offline_clients st)) st in
  Ok (logging INFO ("Client online: " +:+ name) st).

(** The branch of [CLIENT_REPORT]; a failure of the write is caught
    and logged where it happens. *)
Definition client_report (contents : list (string * json))
    (utcnow : datetime) (st : state) : result state :=
  try! report <- Report.validate L (dict_get "report" contents) ;;
  let st :=
    match RecordDAO.create (records st)
            (Report.to_db_dict utcnow report) with
    | Ok tbl =>
        logging INFO
          ("Saved report from " +:+ Report.name report +:+ " to database")
          (with_records tbl st)
    | Raise e =>
        logging ERROR
          ("Error saving report to database: " +:+ exn_text e) st
    end in
  Ok (logging INFO ("Received report from " +:+ Report.name report) st).

(** The body of the inner [try] of [websocket_endpoint]. *)
Definition process (websocket : nat) (data : option json)
    (utcnow : datetime) (st : state) : result state :=
  try! command_data <- json_loads data ;;
  try! command <- Command.validate command_data ;;
  if decide (Command.type command = CommandType.CLIENT_ONLINE) then
    client_online websocket (Command.contents command) utcnow st
  else if decide (Command.type command = CommandType.CLIENT_REPORT) then
    client_report (Command.contents command) utcnow st
  else
    Ok (logging WARNING
          ("Unknown command type: " +:+ Command.type command) st).

(** One turn of the [while True] loop on a received text. *)
Definition receive (websocket : nat) (data : option json)
    (utcnow : datetime) (st : state) : state :=
  let st := logging INFO "Received message" st in
  match process websocket data utcnow st with
  | Ok st' => st'
  | Raise e =>
      let st := logging ERROR
                  ("Error processing command: " +:+ exn_text e) st in
      send_personal_message (error_payload e) websocket st
  end.

(** The offline transition of the disconnect handler, for a
    [client_name] that is true and in [registered_clients]. *)
Definition mark_offline (client_name : string) (client : Client.t)
    (st : state) : state :=
  let client := Client.set_online false client in
  let st := with_cache (<[client_name := client]> (registered_clients st))
              (offline_clients st ++ [client]) st in
  let st := with_clients
              (ClientDAO.set_offline (clients st) client_name).1 st in
  let st := logging INFO
              ("Updated client " +:+ client_name +:+
               " status to offline in database") st in
  logging INFO ("Client offline: " +:+ client_name) st.

(** The handler of [WebSocketDisconnect] in the endpoint of
    [websocket], whose local is [client_name].  The endpoint ends
    with it; when [manager.disconnect] raises, it ends there. *)
Definition disconnect (websocket : nat) (client_name : option string)
    (st : state) : state :=
  match list_remove websocket (active_connections st) with
  | Ok conns =>
      let st := with_channels conns
                  (delete websocket (endpoints st)) st in
      match truthy client_name with
      | Some name =>
          match registered_clients st !! name with
          | Some client => mark_offline name client st
          | None => st
          end
      | None => st
      end
  | Raise _ =>
      with_channels (active_connections st)
        (delete websocket (endpoints st)) st
  end.

(** [GET /delclient?name=...]: the new state and the response. *)
Definition delete_client (name : string) (st : state) : state * json :=
  let '(tbl, success) := ClientDAO.delete (clients st) name in
  if success then
    let st := with_clients tbl st in
    let st := with_cache (delete name (registered_clients st))
                (without name (offline_clients st)) st in
    (logging INFO ("Client deleted: " +:+ name) st, JDict [])
  else (st, JDict [("error", JStr "Client not found")]).

(** [GET /clients]: name, address and flag of the rows that
    [ClientDAO.get_online] returns. *)
Definition get_clients (st : state) : list (string * string * bool) :=
  (λ kv, (kv.1, DBClient.ip kv.2, DBClient.online kv.2))
    <$> ClientDAO.get_online (clients st).

(** An event reaches the endpoint that serves its channel; a channel
    without a running endpoint has nobody to handle it. *)
Definition step (st : state) (e : event) : state :=
  match e with
  | Accept => connect st
  | Receive ws data utcnow =>
      match endpoints st !! ws with
      | Some _ => receive ws data utcnow st
      | None => st
      end
  | Disconnect ws =>
      match endpoints st !! ws with
      | Some client_name => disconnect ws client_name st
      | None => st
      end
  | DeleteClient name => (delete_client name st).1
  end.

Definition run (st : state) (evs : list event) : state :=
  foldl step st evs.

(** The exception that the decoding of a received text raises, if it
    raises one: the protocol errors of the telemetry channel. *)
Definition malformed (data : option json) : option exn :=
  match json_loads data with
  | Raise e => Some e
  | Ok command_data =>
      match Command.validate command_data with
      | Raise e => Some e
      | Ok command =>
          if decide (Command.type command = CommandType.CLIENT_ONLINE)
          then
            match Client.validate L
                    (dict_get "client" (Command.contents command)) with
            | Raise e => Some e
            | Ok _ => None
            end
          else if decide (Command.type command
                          = CommandType.CLIENT_REPORT)
          then
            match Report.validate L
                    (dict_get "report" (Command.contents command)) with
            | Raise e => Some e
            | Ok _ => None
            end
          else None
      end
  end.

(** The client that a received text brings online, if it is a
    [CLIENT_ONLINE] that decodes. *)
Definition announced (data : option json) : option Client.t :=
  match data with
  | Some command_data =>
      match Command.validate command_data with
      | Ok command =>
          if decide (Command.type command = CommandType.CLIENT_ONLINE)
          then
            match Client.validate L
                    (dict_get "client" (Command.contents command)) with
            | Ok client => Some client
            | Raise _ => None
            end
          else None
      | Raise _ => None
      end
  | None => None
  end.

(** A live telemetry channel exists for [name]: some running endpoint
    serves a channel on which [name] came online. *)
Definition has_session (st : state) (name : string) : Prop :=
  ∃ ws, endpoints st !! ws = Some (Some name).

(** The flag of [name] as a reader of [GET /clients] sees it. *)
Definition listed_online (st : state) (name : string) : Prop :=
  ∃ ip, (name, ip, true) ∈ get_clients st.

(** The discipline of agents under which the directory follows the
    channels: a name that comes online is not empty, a channel carries
    one name, no second channel takes a name that a live channel
    carries, and no administrator deletes. *)
Definition orderly (st : state) (e : event) : Prop :=
  match e with
  | Receive ws data _ =>
      match endpoints st !! ws, announced data with
      | Some client_name, Some client =>
          Client.name client ≠ ""
          ∧ (client_name = None ∨ client_name = Some (Client.name client))
          ∧ map_Forall
              (λ ws' cn, cn = Some (Client.name client) → ws' = ws)
              (endpoints st)
      | _, _ => True
      end
  | DeleteClient _ => False
  | _ => True
  end.

(** The manager's list and the running endpoints describe the same
    channels, each once, all older than the next one. *)
Definition channels_ok (st : state) : Prop :=
  NoDup (active_connections st)
  ∧ (∀ ws, ws ∈ active_connections st ↔ is_Some (endpoints st !! ws))
  ∧ (∀ ws, ws ∈ active_connections st → ws < next_websocket st).

(** The row of [name] in table [clients] says online. *)
Definition stored_online (st : state) (name : string) : Prop :=
  ∃ row, clients st !! name = Some row ∧ DBClient.online row = true.


#[global] Instance orderly_dec st e : Decision (orderly st e).
Proof.
  destruct e as [|ws data now|ws|name]; simpl; try apply _.
  destruct (endpoints st !! ws), (announced data); apply _.
Defined.

End handlers.

(** [GET /alert]: the rows of the table that are not online, then the
    clients of [offline_clients] whose name is not yet in the answer; name,
    address and flag of each. *)
Definition get_offline_clients (st : state) : list (string * string * bool) :=
  let offline_db_clients :=
    (λ kv : string * DBClient.t, (kv.1, DBClient.ip kv.2, false))
      <$> filter (λ kv, DBClient.online kv.2 = false)
            (ClientDAO.get_all (clients st)) in
  foldl (λ answer client,
           if decide (Client.name client ∈ (λ c, c.1.1) <$> answer)
           then answer
           else answer ++ [(Client.name client, Client.ip client, false)])
        offline_db_clients (offline_clients st).

(** The caches agree with each other and with the table: a client of
    [offline_clients] is flagged offline, is the entry of its name in
    [registered_clients] and is not online in the table; an entry of
    [registered_clients] stands under its own name and has a row. *)
Definition cache_ok (st : state) : Prop :=
  (∀ c, c ∈ offline_clients st →
        Client.online c = false
        ∧ registered_clients st !! Client.name c = Some c
        ∧ ¬ stored_online st (Client.name c))
  ∧ (∀ n c, registered_clients st !! n = Some c →
            Client.name c = n ∧ is_Some (clients st !! n)).
End server.

(** ** [common/system_info.py] *)

Module SystemInfo.
(** What the host answers at the moment of a report: [get_os_info()],
    [get_avg_load()], [get_cpu_count()] and [int(time.time() * 1000)]. *)
Record host : Type := mk {
  os_info : string;
  avg_load : float;
  cpu_count : option Z;
  time_ms : Z;
}.

(** [get_local_ip()]: [probe] is the address of the UDP socket, or the
    exception of the attempt. *)
Definition get_local_ip (probe : result string) : string :=
  match probe with
  | Ok ip => "127.0.0.1"
  | Raise _ => "127.0.0.1"
  end.

Definition get_system_report (h : host) (client_name : string) : json :=
  JDict [("name", JStr client_name);
         ("os", JStr (os_info h));
         ("load", JFloat (avg_load h));
         ("cpus", match cpu_count h with Some n => JInt n | None => JNull end);
         ("timestamp", JInt (time_ms h))].
End SystemInfo.

(** ** [client/main.py]: the Streaming state

    [connect_to_server] has sent [CLIENT_ONLINE] and created the report
    task; two coroutines now share the channel.  Each is at one of its
    suspension points, and the event loop resumes one at a time.  A task
    whose cancellation was requested gets [CancelledError] at the point where
    it is suspended the next time the loop resumes it, whether or not what it
    was waiting for has completed. *)

Module client.
(** Where [periodic_report] is: created and not yet run, in
    [await websocket.send], in [await asyncio.sleep(self.report_interval)],
    in [await asyncio.sleep(1)] of the [except Exception] handler, returned,
    or ended by [CancelledError]. *)
Inductive report_pc : Type :=
| Created
| Sending
| Sleeping
| Backoff
| Returned
| Cancelled.

(** Where [connect_to_server] is: in [await websocket.recv()], in
    [await report_task] of the [finally] block, or past that block. *)
Inductive parent_pc : Type :=
| Receiving
| Awaiting
| Left.

Record state : Type := mk {
  running : bool;
  parent : parent_pc;
  report : report_pc;
  must_cancel : bool;
  emitted : list (option json);
}.

(** How an awaited call ends when it is not cancelled. *)
Inductive outcome : Type :=
| Completed
| Failed.

Inductive event : Type :=
| Recv                                   (* [recv()] returns a message *)
| RecvClosed                             (* [recv()] raises [ConnectionClosed] *)
| RecvFailed                             (* [recv()] raises something else *)
| Resume (o : outcome) (h : option SystemInfo.host)
                                         (* the loop resumes the report task *)
| Join                                   (* the loop resumes the parent in
                                            [await report_task] *)
| Stop.                                  (* [stop()] *)

Definition done (pc : report_pc) : bool :=
  match pc with
  | Returned | Cancelled => true
  | _ => false
  end.

(** The state in which Streaming begins. *)
Definition streaming : state := mk true Receiving Created false [].

Definition with_report (pc : report_pc) (st : state) : state :=
  mk (running st) (parent st) pc (must_cancel st) (emitted st).

(** The [finally] block up to its suspension: [report_task.cancel()], a
    request unless the task is done, then [await report_task]. *)
Definition enter_finally (st : state) : state :=
  mk (running st) Awaiting (report st)
     (if done (report st) then must_cancel st else true) (emitted st).

Section loops.
Context (L : Lib) (client_name : string).

(** One pass of [while self.running] in [periodic_report], from the test
    of the loop to the next suspension.  [h] is what the host answers, [None]
    when the collection raises. *)
Definition iteration (h : option SystemInfo.host) (st : state) : state :=
  if running st then
    match h with
    | Some h =>
        match Report.validate L
                (SystemInfo.get_system_report h client_name) with
        | Ok report =>
            mk (running st) (parent st) Sending (must_cancel st)
               (emitted st ++ [frame (Command.create_client_report L report)])
        | Raise _ => with_report Backoff st
        end
    | None => with_report Backoff st
    end
  else with_report Returned st.

(** The loop resumes the report task. *)
Definition resume (o : outcome) (h : option SystemInfo.host) (st : state)
    : state :=
  if done (report st) then st
  else if must_cancel st then
    (* [CancelledError] is thrown where the task is suspended *)
    let pc := match report st with
              | Sending | Sleeping => Returned  (* caught: [break] *)
              | _ => Cancelled                  (* nothing catches it *)
              end in
    mk (running st) (parent st) pc false (emitted st)
  else
    match report st with
    | Sending =>
        match o with
        | Completed => with_report Sleeping st
        | Failed => with_report Backoff st
        end
    | _ => iteration h st
    end.

Definition step (st : state) (e : event) : state :=
  match e with
  | Recv =>
      match parent st with
      | Receiving => if running st then st else enter_finally st
      | _ => st
      end
  | RecvClosed | RecvFailed =>
      match parent st with
      | Receiving => enter_finally st
      | _ => st
      end
  | Resume o h => resume o h st
  | Join =>
      match parent st with
      | Awaiting =>
          if done (report st)
          then mk (running st) Left (report st) (must_cancel st) (emitted st)
          else st
      | _ => st
      end
  | Stop =>
      mk false (parent st) (report st) (must_cancel st) (emitted st)
  end.

Definition run (st : state) (evs : list event) : state :=
  foldl step st evs.

(** Once the parent is in its [finally] block, the report task is done or
    its cancellation is pending; past the block, it is done. *)
Definition winding_down (st : state) : Prop :=
  match parent st with
  | Receiving => True
  | Awaiting => done (report st) = true ∨ must_cancel st = true
  | Left => done (report st) = true
  end.
End loops.

(** [register_to_center]: how the exchange with the register ends.  The
    connection fails, or the register closes without a reply, or a text
    arrives. *)
Inductive exchange : Type :=
| Refused
| ClosedSilent
| Replied (response : option json).

(** What [register_to_center] leaves: the server it took and the address
    of its telemetry channel, or the exception it raises again. *)
Inductive discovery : Type :=
| Discovered (server : Server.t) (server_url : string)
| TransportError
| ReplyError (e : exn).

Definition register_to_center (L : Lib) (x : exchange) : discovery :=
  match x with
  | Refused | ClosedSilent => TransportError
  | Replied response =>
      match (try! server_data <- json_loads response ;;
             Server.validate L server_data) with
      | Ok server =>
          Discovered server ("ws://" +:+ Server.ip server +:+ ":10641/ws")
      | Raise e => ReplyError e
      end
  end.

(** [register_to_register_center] of the monitor: the text it sends. *)
Definition server_registration (probe : result string) : option json :=
  frame (Command.create_server_online
           (Server.mk None (SystemInfo.get_local_ip probe))).

(** The client that [start] builds; [name] is the random name. *)
Definition local_client (name : string) (probe : result string) : Client.t :=
  Client.mk name (SystemInfo.get_local_ip probe) true.
End client.

(** * Properties *)

(** ** Dictionaries and validation *)

Lemma dict_get_has k d : dict_get k d ≠ JNull → dict_has k d = true.
Proof.
  induction d as [|[k' v] d IH]; simpl; [done|].
  destruct (decide (k' = k)); auto.
Qed.

Lemma getitem_setitem {V} k (v : V) d : getitem k (setitem k v d) = Some v.
Proof.
  induction d as [|[k' v'] d IH]; simpl.
  - by rewrite decide_True.
  - destruct (decide (k' = k)) as [->|Hne]; simpl.
    + by rewrite decide_True.
    + by rewrite decide_False.
Qed.

Lemma getitem_setitem_ne {V} k k' (v : V) d :
  k ≠ k' → getitem k' (setitem k v d) = getitem k' d.
Proof.
  intros Hne. induction d as [|[k0 v0] d IH]; simpl.
  - by rewrite decide_False.
  - destruct (decide (k0 = k)) as [->|Hk0]; simpl.
    + by rewrite !decide_False.
    + by rewrite IH.
Qed.

Lemma required_str_get m f d s :
  dict_get f d = JStr s → required m f as_str d = Ok s.
Proof.
  intros Hget. unfold required.
  rewrite dict_get_has by (by rewrite Hget). by rewrite Hget.
Qed.

(** A client is read as it was sent: name, address and flag, the flag being
    [True] when the sender left it out. *)
Lemma Client_validate_sent L d n i :
  dict_get "name" d = JStr n →
  dict_get "ip" d = JStr i →
  (∀ b, dict_get "online" d = JBool b →
        Client.validate L (JDict d) = Ok (Client.mk n i b))
  ∧ (dict_has "online" d = false →
        Client.validate L (JDict d) = Ok (Client.mk n i true)).
Proof.
  intros Hn Hi. unfold Client.validate; simpl.
  rewrite (required_str_get _ _ _ _ Hn), (required_str_get _ _ _ _ Hi); simpl.
  split.
  - intros b Hb. unfold defaulted.
    rewrite dict_get_has by (by rewrite Hb). by rewrite Hb.
  - intros Hno. unfold defaulted. by rewrite Hno.
Qed.

Lemma Client_validate_dump L c :
  Client.validate L (Client.model_dump c) = Ok c.
Proof. by destruct c. Qed.


(** ** The register service *)

Section register_props.
Context (L : Lib).
Import register.

Lemma app_singleton_neq {A} (l : list A) (x : A) : l ++ [x] ≠ l.
Proof.
  intros Heq. apply (f_equal length) in Heq.
  rewrite length_app in Heq. simpl in Heq. lia.
Qed.

(** What [receive] does on a well-formed [CLIENT_REGIST]. *)
Lemma receive_client_regist st ws command_data contents client :
  Command.validate command_data
    = Ok (Command.mk CommandType.CLIENT_REGIST contents) →
  Client.validate L (dict_get "client" contents) = Ok client →
  receive L ws (Some command_data) st =
    let st1 := logging INFO ("Client registered: " +:+ Client.name client)
                 (store_client client (logging INFO "Received message" st))
    in match registered_servers st with
       | (_, server) :: _ =>
           send_personal_message (Server.model_dump server) ws st1
       | [] => st1
       end.
Proof.
  intros Hcmd Hcl. unfold receive, process. simpl. rewrite Hcmd. simpl.
  rewrite Hcl. simpl. by destruct (registered_servers st) as [|[??]?].
Qed.

Lemma receive_server_online st ws M :
  receive L ws (frame (Command.create_server_online (Server.mk None M))) st
  = logging INFO ("Server online: " +:+ M)
      (store_server M (Server.mk None M)
         (logging INFO "Received message" st)).
Proof. reflexivity. Qed.
End register_props.

(** C3. A [CLIENT_REGIST] that carries a valid client upserts the entry of
    that client and leaves the monitors alone; the register sends a frame on
    the sender's channel exactly when it knows a monitor, and that frame is
    the identity of the first known monitor.  When the only monitor was
    announced by a [SERVER_ONLINE] with address [M], the reply is the
    identity with address [M]. *)
Theorem register_client_regist_reply (L : Lib) (st : register.state)
    (ws : nat) (command_data : json) (contents : list (string * json))
    (client : Client.t) :
  ws ∈ register.endpoints st →
  Command.validate command_data
    = Ok (Command.mk CommandType.CLIENT_REGIST contents) →
  Client.validate L (dict_get "client" contents) = Ok client →
  let regist := register.Receive ws (Some command_data) in
  let st' := register.step L st regist in
  register.registered_clients st'
    = setitem (Client.name client) client (register.registered_clients st)
  ∧ register.registered_servers st' = register.registered_servers st
  ∧ (register.registered_servers st = [] →
       register.sent st' = register.sent st)
  ∧ (∀ k server rest,
       register.registered_servers st = (k, server) :: rest →
       register.sent st'
         = register.sent st ++ [(ws, Server.model_dump server)])
  ∧ (register.sent st' ≠ register.sent st
       ↔ register.registered_servers st ≠ [])
  ∧ (∀ ws0 M,
       ws0 ∈ register.endpoints st →
       register.registered_servers st = [] →
       let online := register.Receive ws0
                       (frame (Command.create_server_online
                                 (Server.mk None M))) in
       register.sent (register.run L st [online; regist])
         = register.sent st ++ [(ws, JDict [("id", JNull); ("ip", JStr M)])]).
Proof.
  intros Hws Hcmd Hcl regist st'. subst regist st'. unfold register.step.
  rewrite decide_True by done.
  rewrite (receive_client_regist L _ _ _ _ _ Hcmd Hcl).
  assert (Hseq : ∀ ws0 M, ws0 ∈ register.endpoints st →
            register.registered_servers st = [] →
            register.sent (register.run L st
              [register.Receive ws0
                 (frame (Command.create_server_online (Server.mk None M)));
               register.Receive ws (Some command_data)])
            = register.sent st ++ [(ws, JDict [("id", JNull); ("ip", JStr M)])]).
  { intros ws0 M Hws0 Hsrv. unfold register.run; simpl.
    destruct (decide (ws0 ∈ register.endpoints st)); [|done].
    rewrite receive_server_online. simpl.
    rewrite decide_True by done.
    rewrite (receive_client_regist L _ _ _ _ _ Hcmd Hcl). simpl.
    by rewrite Hsrv. }
  destruct (register.registered_servers st) as [|[k0 s0] rest0] eqn:Hsrv;
    simpl.
  - split_and!; done.
  - split_and!; try done.
    + by intros k server rest [= _ -> _].
    + split; [done|]. intros _. apply app_singleton_neq.
Qed.

Lemma register_client_regist_reply_witness :
  let st := register.run strict_lib register.initial
              [register.Accept; register.Accept] in
  let client := Client.mk "3F2A9C1B" "127.0.0.1" true in
  register.sent
    (register.run strict_lib st
       [register.Receive 0
          (frame (Command.create_server_online (Server.mk None "10.0.0.7")));
        register.Receive 1 (frame (Command.create_client_register client))])
  = [(1, JDict [("id", JNull); ("ip", JStr "10.0.0.7")])].
Proof.
  intros st client.
  refine (proj2 (proj2 (proj2 (proj2 (proj2
    (register_client_regist_reply strict_lib st 1
       (Command.model_dump (Command.create_client_register client))
       [("client", Client.model_dump client)] client _ _ _))))) 0 "10.0.0.7" _ _).
  - vm_compute. set_solver.
  - reflexivity.
  - reflexivity.
  - vm_compute. set_solver.
  - reflexivity.
Defined.

Section register_directory.
Context (L : Lib).
Import register.

(** A step changes the directory of agents only by storing the client
    that its message announces. *)
Lemma step_registered_clients st e :
  registered_clients (step L st e) = registered_clients st
  ∨ ∃ client,
      announced L e = Some (Client.name client)
      ∧ registered_clients (step L st e)
        = setitem (Client.name client) client (registered_clients st).
Proof.
  destruct e as [|ws data|ws]; simpl.
  - by left.
  - destruct (decide (ws ∈ endpoints st)); [|by left].
    unfold receive, process.
    destruct data as [command_data|]; simpl; [|by left].
    destruct (Command.validate command_data) as [command|err]; simpl;
      [|by left].
    destruct (decide (Command.type command = CommandType.CLIENT_REGIST))
      as [Hty|Hty].
    { rewrite decide_True by (by left).
      destruct (Client.validate L _) as [client|err]; simpl; [|by left].
      right. exists client. split; [done|].
      by destruct (registered_servers st) as [|[??]?]. }
    destruct (decide (Command.type command = CommandType.CLIENT_ONLINE))
      as [Hty'|Hty'].
    { rewrite decide_True by (by right).
      destruct (Client.validate L _) as [client|err]; simpl; [|by left].
      right. by exists client. }
    left. destruct (decide (Command.type command = CommandType.SERVER_ONLINE));
      [|done].
    by destruct (Server.of_ip _).
  - destruct (decide (ws ∈ endpoints st)); [|by left].
    left. unfold disconnect. by destruct (list_remove _ _).
Qed.

Lemma run_registered_clients st evs n :
  (∀ e, e ∈ evs → announced L e ≠ Some n) →
  getitem n (registered_clients (run L st evs))
  = getitem n (registered_clients st).
Proof.
  revert st. induction evs as [|e evs IH]; intros st Hevs; [done|].
  unfold run in *. simpl. rewrite IH.
  - destruct (step_registered_clients st e) as [->|(client & Hann & ->)];
      [done|].
    apply getitem_setitem_ne. intros <-.
    by apply (Hevs e); [left|].
  - intros e' He'. apply Hevs. by right.
Qed.

Lemma disconnect_directory st ws :
  registered_clients (step L st (Disconnect ws)) = registered_clients st
  ∧ registered_servers (step L st (Disconnect ws)) = registered_servers st.
Proof.
  simpl. destruct (decide (ws ∈ endpoints st)); [|done].
  unfold disconnect. by destruct (list_remove _ _).
Qed.
End register_directory.

(** C10. The register never clears an online flag by itself.  A
    [CLIENT_REGIST] or [CLIENT_ONLINE] with a valid client stores that
    client; the client is read as sent, flag included, and the flag is
    [True] when the message has none.  The end of a channel changes no entry
    of either directory.  Whatever happens afterwards, the entry of a name
    stays as it is as long as no message announces that name again. *)
Theorem register_never_marks_offline (L : Lib) :
  (∀ st ws command_data ty contents client,
     ws ∈ register.endpoints st →
     Command.validate command_data = Ok (Command.mk ty contents) →
     ty = CommandType.CLIENT_REGIST ∨ ty = CommandType.CLIENT_ONLINE →
     Client.validate L (dict_get "client" contents) = Ok client →
     register.registered_clients
       (register.step L st (register.Receive ws (Some command_data)))
     = setitem (Client.name client) client (register.registered_clients st))
  ∧ (∀ d n i,
       dict_get "name" d = JStr n →
       dict_get "ip" d = JStr i →
       (∀ b, dict_get "online" d = JBool b →
             Client.validate L (JDict d) = Ok (Client.mk n i b))
       ∧ (dict_has "online" d = false →
             Client.validate L (JDict d) = Ok (Client.mk n i true)))
  ∧ (∀ st ws,
       register.registered_clients
         (register.step L st (register.Disconnect ws))
       = register.registered_clients st
       ∧ register.registered_servers
           (register.step L st (register.Disconnect ws))
         = register.registered_servers st)
  ∧ (∀ st evs n,
       (∀ e, e ∈ evs → register.announced L e ≠ Some n) →
       getitem n (register.registered_clients (register.run L st evs))
       = getitem n (register.registered_clients st)).
Proof.
  split_and!.
  - intros st ws command_data ty contents client Hws Hcmd Hty Hcl. simpl.
    rewrite decide_True by done. unfold register.receive, register.process.
    simpl. rewrite Hcmd. simpl.
    destruct Hty as [->| ->]; simpl; rewrite Hcl; simpl; [|done].
    by destruct (register.registered_servers st) as [|[??]?].
  - apply Client_validate_sent.
  - apply disconnect_directory.
  - apply run_registered_clients.
Qed.

(** An agent registers with its flag set and its channel closes; other
    agents and a monitor come and go: the agent is still listed online. *)
Lemma register_never_marks_offline_witness :
  let agent := Client.mk "3F2A9C1B" "127.0.0.1" true in
  let st := register.run strict_lib register.initial
              [register.Accept;
               register.Receive 0
                 (frame (Command.create_client_register agent))] in
  let later :=
    [register.Disconnect 0; register.Accept;
     register.Receive 1
       (frame (Command.create_server_online (Server.mk None "10.0.0.7")));
     register.Receive 1
       (frame (Command.create_client_online
                 (Client.mk "77AA01FE" "10.0.0.9" false)));
     register.Disconnect 1] in
  getitem "3F2A9C1B"
    (register.registered_clients (register.run strict_lib st later))
  = Some agent.
Proof.
  intros agent st later.
  rewrite (proj2 (proj2 (proj2 (register_never_marks_offline strict_lib)))
             st later "3F2A9C1B").
  - reflexivity.
  - intros e He. subst later.
    repeat (apply elem_of_cons in He as [->|He]); try (by vm_compute).
    by apply elem_of_nil in He.
Defined.

(** ** Protocol errors on the two channels *)

Section protocol_errors.
Context (L : Lib).

Lemma server_process_malformed ws data now st e :
  server.malformed L data = Some e →
  server.process L ws data now st = Raise e.
Proof.
  unfold server.malformed, server.process, server.client_online,
    server.client_report.
  destruct (json_loads data) as [command_data|e0]; simpl;
    [|by intros [= ->]].
  destruct (Command.validate command_data) as [command|e0]; simpl;
    [|by intros [= ->]].
  repeat case_decide; try done.
  - destruct (Client.validate L _); simpl; [done|by intros [= ->]].
  - destruct (Report.validate L _); simpl; [done|by intros [= ->]].
Qed.

Lemma register_process_malformed ws data st e :
  register.malformed L data = Some e →
  register.process L ws data st = Raise e.
Proof.
  unfold register.malformed, register.process.
  destruct (json_loads data) as [command_data|e0]; simpl;
    [|by intros [= ->]].
  destruct (Command.validate command_data) as [command|e0]; simpl;
    [|by intros [= ->]].
  destruct (decide (Command.type command = CommandType.CLIENT_REGIST))
    as [Hty|Hty].
  { rewrite decide_True by (by left).
    destruct (Client.validate L _); simpl; [done|by intros [= ->]]. }
  destruct (decide (Command.type command = CommandType.CLIENT_ONLINE))
    as [Hty'|Hty'].
  { rewrite decide_True by (by right).
    destruct (Client.validate L _); simpl; [done|by intros [= ->]]. }
  rewrite decide_False by (by intros [?|?]).
  case_decide; [|done].
  destruct (Server.of_ip _); simpl; [done|by intros [= ->]].
Qed.
End protocol_errors.

(** C6, as the code has it.  On the telemetry channel as on the register
    channel, a text that fails to decode (not JSON, not a command, a client,
    report or address that does not validate) is logged and answered with
    an error payload on the same channel; nothing else changes, so the
    message is dropped and the channel stays open.  A command with an
    unknown tag is logged as a warning and gets no answer, on either
    channel. *)
Theorem protocol_error_is_answered (L : Lib) :
  (∀ st ws client_name data now e,
     server.endpoints st !! ws = Some client_name →
     server.malformed L data = Some e →
     let st' := server.step L st (server.Receive ws data now) in
     st' = server.send_personal_message (error_payload e) ws
             (server.logging ERROR
                ("Error processing command: " +:+ exn_text e)
                (server.logging INFO "Received message" st))
     ∧ server.sent st' = server.sent st ++ [(ws, error_payload e)]
     ∧ server.endpoints st' = server.endpoints st
     ∧ server.active_connections st' = server.active_connections st
     ∧ server.clients st' = server.clients st
     ∧ server.records st' = server.records st)
  ∧ (∀ st ws data e,
       ws ∈ register.endpoints st →
       register.malformed L data = Some e →
       let st' := register.step L st (register.Receive ws data) in
       st' = register.send_personal_message (error_payload e) ws
               (register.logging ERROR
                  ("Error processing command: " +:+ exn_text e)
                  (register.logging INFO "Received message" st))
       ∧ register.sent st' = register.sent st ++ [(ws, error_payload e)]
       ∧ register.endpoints st' = register.endpoints st
       ∧ register.active_connections st' = register.active_connections st)
  ∧ (∀ st ws client_name command_data command now,
       server.endpoints st !! ws = Some client_name →
       Command.validate command_data = Ok command →
       Command.type command ≠ CommandType.CLIENT_ONLINE →
       Command.type command ≠ CommandType.CLIENT_REPORT →
       server.step L st (server.Receive ws (Some command_data) now)
       = server.logging WARNING
           ("Unknown command type: " +:+ Command.type command)
           (server.logging INFO "Received message" st))
  ∧ (∀ st ws command_data command,
       ws ∈ register.endpoints st →
       Command.validate command_data = Ok command →
       Command.type command ≠ CommandType.CLIENT_REGIST →
       Command.type command ≠ CommandType.CLIENT_ONLINE →
       Command.type command ≠ CommandType.SERVER_ONLINE →
       register.step L st (register.Receive ws (Some command_data))
       = register.logging WARNING
           ("Unknown command type: " +:+ Command.type command)
           (register.logging INFO "Received message" st)).
Proof.
  split_and!.
  - intros st ws cn data now e Hws Hbad. simpl. rewrite Hws.
    unfold server.receive.
    by rewrite (server_process_malformed L _ _ _ _ _ Hbad).
  - intros st ws data e Hws Hbad. simpl. rewrite decide_True by done.
    unfold register.receive.
    by rewrite (register_process_malformed L _ _ _ _ Hbad).
  - intros st ws cn command_data command now Hws Hcmd H1 H2. simpl.
    rewrite Hws. unfold server.receive, server.process. simpl.
    rewrite Hcmd. simpl. by rewrite !decide_False.
  - intros st ws command_data command Hws Hcmd H1 H2 H3. simpl.
    rewrite decide_True by done. unfold register.receive, register.process.
    simpl. rewrite Hcmd. simpl. by rewrite !decide_False.
Qed.

(** A text that is not JSON arrives on a telemetry channel and the monitor
    sends the error back; a command without contents does the same on the
    register channel. *)
Lemma protocol_error_is_answered_witness :
  let st := server.run strict_lib server.initial [server.Accept] in
  server.sent (server.step strict_lib st (server.Receive 0 None 0%Z))
  = [(0, JDict [("error", JStr "Expecting value")])].
Proof.
  intros st.
  exact (proj1 (proj2 (proj1 (protocol_error_is_answered strict_lib)
                         st 0 None None 0%Z JSONDecodeError
                         eq_refl eq_refl))).
Defined.

(** C6 as stated fails: a protocol error on the telemetry channel is not
    dropped in silence, the monitor answers it with an error payload. *)
Lemma telemetry_error_payload_sent :
  let st := server.run strict_lib server.initial [server.Accept] in
  let bad := Some (JDict [("type", JStr "CLIENT_REPORT")]) in
  let st' := server.step strict_lib st (server.Receive 0 bad 0%Z) in
  server.malformed strict_lib bad
    = Some (ValidationError "Command" "contents")
  ∧ server.sent st = []
  ∧ server.sent st'
    = [(0, JDict [("error",
                   JStr "validation error for Command: contents")])]
  ∧ server.endpoints st' !! 0 = Some None.
Proof. by vm_compute. Qed.

(** ** Reports and the report store *)

Lemma optional_null {A} m f (conv : json → option A) d :
  dict_get f d = JNull → optional m f conv d = Ok None.
Proof. intros H. unfold optional. by rewrite H. Qed.

(** What a report that validates has read from its dict. *)
Lemma Report_validate_inv L d r :
  Report.validate L (JDict d) = Ok r →
  required "Report" "name" as_str d = Ok (Report.name r)
  ∧ required "Report" "os" as_str d = Ok (Report.os r)
  ∧ required "Report" "load" (as_float L) d = Ok (Report.load r)
  ∧ required "Report" "cpus" (as_int L) d = Ok (Report.cpus r)
  ∧ optional "Report" "memory_total" (as_float L) d
    = Ok (Report.memory_total r)
  ∧ optional "Report" "memory_used" (as_float L) d
    = Ok (Report.memory_used r)
  ∧ optional "Report" "memory_percent" (as_float L) d
    = Ok (Report.memory_percent r)
  ∧ optional "Report" "disk_total" (as_float L) d = Ok (Report.disk_total r)
  ∧ optional "Report" "disk_used" (as_float L) d = Ok (Report.disk_used r)
  ∧ optional "Report" "disk_percent" (as_float L) d
    = Ok (Report.disk_percent r)
  ∧ optional "Report" "timestamp" (validate_datetime L) d
    = Ok (Report.timestamp r).
Proof.
  unfold Report.validate. simpl.
  repeat match goal with
         | |- context [result_bind ?m _] => destruct m; simpl; [|done]
         end.
  by intros [= <-].
Qed.

Lemma RecordDAO_create_lacks tbl now r :
  Report.lacks_metrics r →
  ∃ column, RecordDAO.create tbl (Report.to_db_dict now r)
            = Raise (IntegrityError column).
Proof.
  unfold RecordDAO.create, Report.lacks_metrics. simpl.
  destruct (Report.memory_total r), (Report.memory_used r),
    (Report.memory_percent r), (Report.disk_total r),
    (Report.disk_used r), (Report.disk_percent r); simpl; eauto.
  by intros [?|[?|[?|[?|[?|?]]]]].
Qed.

(** The samples of the bundled collector carry no memory or disk field. *)
Lemma collector_omits_metrics L h client_name r :
  Report.validate L (SystemInfo.get_system_report h client_name) = Ok r →
  Report.memory_total r = None ∧ Report.memory_used r = None
  ∧ Report.memory_percent r = None ∧ Report.disk_total r = None
  ∧ Report.disk_used r = None ∧ Report.disk_percent r = None.
Proof.
  intros Hv. apply Report_validate_inv in Hv.
  destruct Hv as (_ & _ & _ & _ & H1 & H2 & H3 & H4 & H5 & H6 & _).
  rewrite optional_null in H1, H2, H3, H4, H5, H6 by done.
  by simplify_eq.
Qed.

Section report_store.
Context (L : Lib).

(** What [receive] does on a [CLIENT_REPORT] whose report decodes. *)
Lemma receive_client_report st ws command_data contents report now :
  Command.validate command_data
    = Ok (Command.mk CommandType.CLIENT_REPORT contents) →
  Report.validate L (dict_get "report" contents) = Ok report →
  server.receive L ws (Some command_data) now st =
    let st0 := server.logging INFO "Received message" st in
    server.logging INFO ("Received report from " +:+ Report.name report)
      match RecordDAO.create (server.records st)
              (Report.to_db_dict now report) with
      | Ok tbl =>
          server.logging INFO
            ("Saved report from " +:+ Report.name report +:+ " to database")
            (server.with_records tbl st0)
      | Raise e =>
          server.logging ERROR
            ("Error saving report to database: " +:+ exn_text e) st0
      end.
Proof.
  intros Hcmd Hrep. unfold server.receive, server.process. simpl.
  rewrite Hcmd. simpl. unfold server.client_report. by rewrite Hrep.
Qed.
End report_store.

(** C9. A report that decodes with one of its memory or disk fields absent
    is not stored: the write fails on a non-nullable column, the monitor
    logs the failure, answers nothing and keeps the channel.  Every sample
    that the agent builds from its own collector has all six fields absent,
    so no frame that the agent makes of such a sample adds a row to the
    store. *)
Theorem report_without_metrics_is_lost (L : Lib) :
  (∀ st ws client_name command_data contents report now,
     server.endpoints st !! ws = Some client_name →
     Command.validate command_data
       = Ok (Command.mk CommandType.CLIENT_REPORT contents) →
     Report.validate L (dict_get "report" contents) = Ok report →
     Report.lacks_metrics report →
     let st' := server.step L st (server.Receive ws (Some command_data) now)
     in
     (∃ column,
        RecordDAO.create (server.records st) (Report.to_db_dict now report)
          = Raise (IntegrityError column)
        ∧ server.log st'
          = server.log st ++
            [(INFO, "Received message");
             (ERROR, "Error saving report to database: "
                       +:+ exn_text (IntegrityError column));
             (INFO, "Received report from " +:+ Report.name report)])
     ∧ server.records st' = server.records st
     ∧ server.sent st' = server.sent st
     ∧ server.endpoints st' = server.endpoints st
     ∧ server.active_connections st' = server.active_connections st)
  ∧ (∀ h client_name report,
       Report.validate L (SystemInfo.get_system_report h client_name)
         = Ok report →
       Report.memory_total report = None ∧ Report.memory_used report = None
       ∧ Report.memory_percent report = None
       ∧ Report.disk_total report = None ∧ Report.disk_used report = None
       ∧ Report.disk_percent report = None)
  ∧ (∀ st ws client_name h agent_name report now,
       server.endpoints st !! ws = Some client_name →
       Report.validate L (SystemInfo.get_system_report h agent_name)
         = Ok report →
       let st' := server.step L st
                    (server.Receive ws
                       (frame (Command.create_client_report L report)) now)
       in
       server.records st' = server.records st
       ∧ server.endpoints st' = server.endpoints st).
Proof.
  split_and!.
  - intros st ws cn command_data contents report now Hws Hcmd Hrep Hlacks.
    simpl. rewrite Hws.
    rewrite (receive_client_report L _ _ _ _ _ _ Hcmd Hrep).
    destruct (RecordDAO_create_lacks (server.records st) now report Hlacks)
      as [column Hcol].
    rewrite Hcol. simpl. split_and!; try done.
    exists column. split; [done|]. by rewrite <- !app_assoc.
  - intros h client_name report. apply collector_omits_metrics.
  - intros st ws cn h agent_name report now Hws Hrep.
    unfold server.step. rewrite Hws.
    unfold frame, Command.create_client_report.
    apply collector_omits_metrics in Hrep as (Hmt & _).
    destruct (Report.validate L
                (JDict (Report.model_dump_with
                          match Report.timestamp report with
                          | Some d => JStr (isoformat L d)
                          | None => JNull
                          end report))) as [report'|e] eqn:Hsrv.
    + rewrite (receive_client_report L _ _ _
                 [("report", JDict (Report.model_dump_with
                          match Report.timestamp report with
                          | Some d => JStr (isoformat L d)
                          | None => JNull
                          end report))] report' now); [|done|done].
      assert (Report.lacks_metrics report') as Hlacks.
      { left. apply Report_validate_inv in Hsrv.
        destruct Hsrv as (_ & _ & _ & _ & H1 & _).
        rewrite optional_null in H1 by (simpl; by rewrite Hmt).
        by simplify_eq. }
      destruct (RecordDAO_create_lacks (server.records st) now report' Hlacks)
        as [column Hcol].
      by rewrite Hcol.
    + unfold server.receive, server.process. simpl.
      unfold server.client_report. simpl. by rewrite Hsrv.
Qed.

(** A sample of the collector reaches the monitor: it is logged as failed
    and the store stays empty. *)
Lemma report_without_metrics_is_lost_witness :
  let h := SystemInfo.mk "x86_64Linux6.1" (S754_finite false 3 (-2))
             (Some 8%Z) 1700000000000%Z in
  let report := Report.mk "3F2A9C1B" "x86_64Linux6.1"
                  (S754_finite false 3 (-2)) 8 None None None None None None
                  (Some 1700000000000000%Z) in
  let st := server.run strict_lib server.initial [server.Accept] in
  let st' := server.step strict_lib st
               (server.Receive 0
                  (frame (Command.create_client_report strict_lib report))
                  5%Z) in
  Report.validate strict_lib (SystemInfo.get_system_report h "3F2A9C1B")
    = Ok report
  ∧ server.records st' = server.records st
  ∧ server.endpoints st' = server.endpoints st.
Proof.
  intros h report st st'. split; [reflexivity|].
  exact (proj2 (proj2 (report_without_metrics_is_lost strict_lib))
           st 0 None h "3F2A9C1B" report 5%Z eq_refl eq_refl).
Defined.

(** ** The connection manager of the monitor *)

Lemma list_remove_elem x l : x ∈ l → ∃ l', list_remove x l = Ok l'.
Proof.
  induction l as [|y l IH]; [by intros ?%elem_of_nil|].
  intros Hx. simpl. destruct (decide (y = x)) as [->|Hne]; [by eauto|].
  apply elem_of_cons in Hx as [->|Hx]; [done|].
  destruct (IH Hx) as [l' ->]. simpl. by eauto.
Qed.

Lemma list_remove_absent x l : x ∉ l → list_remove x l = Raise ValueError.
Proof.
  induction l as [|y l IH]; [done|].
  intros Hx. apply not_elem_of_cons in Hx as [Hne Hx]. simpl.
  rewrite decide_False by done. by rewrite IH.
Qed.

Lemma list_remove_NoDup x l l' :
  NoDup l → list_remove x l = Ok l' →
  NoDup l' ∧ ∀ y, y ∈ l' ↔ y ∈ l ∧ y ≠ x.
Proof.
  revert l'. induction l as [|y l IH]; intros l' Hnd; [done|].
  apply NoDup_cons in Hnd as [Hy Hnd]. simpl.
  destruct (decide (y = x)) as [->|Hne].
  - intros [= <-]. split; [done|]. intros z. rewrite elem_of_cons.
    split; [|naive_solver]. intros Hz. split; [by right|]. by intros ->.
  - destruct (list_remove x l) as [r|] eqn:Hr; simpl; [|done].
    intros [= <-]. destruct (IH r Hnd eq_refl) as [Hnd' Hmem]. split.
    + apply NoDup_cons. split; [|done]. rewrite Hmem. naive_solver.
    + intros z. rewrite !elem_of_cons, Hmem. naive_solver.
Qed.

Section monitor.
Context (L : Lib).
Import server.

(** The effect of one received text on channels and directory. *)
Lemma receive_view ws data now st :
  let st' := receive L ws data now st in
  active_connections st' = active_connections st
  ∧ next_websocket st' = next_websocket st
  ∧ match announced L data with
    | Some client =>
        registered_clients st'
          = <[Client.name client := client]> (registered_clients st)
        ∧ offline_clients st'
          = without (Client.name client) (offline_clients st)
        ∧ endpoints st'
          = <[ws := Some (Client.name client)]> (endpoints st)
        ∧ clients st'
          = ClientDAO.create_or_update (clients st) (Client.name client)
              (Client.ip client) true now
    | None =>
        registered_clients st' = registered_clients st
        ∧ offline_clients st' = offline_clients st
        ∧ endpoints st' = endpoints st
        ∧ clients st' = clients st
    end.
Proof.
  unfold receive, process, announced.
  destruct data as [command_data|]; simpl; [|done].
  destruct (Command.validate command_data) as [command|e]; simpl; [|done].
  case_decide.
  - unfold client_online.
    by destruct (Client.validate L _) as [client|e].
  - case_decide; [|done]. unfold client_report.
    destruct (Report.validate L _) as [report|e]; simpl; [|done].
    by destruct (RecordDAO.create _ _).
Qed.

(** The effect of the disconnect handler on channels and directory. *)
Lemma disconnect_view ws client_name st :
  ws ∈ active_connections st →
  let st' := disconnect ws client_name st in
  list_remove ws (active_connections st) = Ok (active_connections st')
  ∧ next_websocket st' = next_websocket st
  ∧ endpoints st' = delete ws (endpoints st)
  ∧ records st' = records st
  ∧ sent st' = sent st
  ∧ match truthy client_name with
    | Some name =>
        match registered_clients st !! name with
        | Some client =>
            registered_clients st'
              = <[name := Client.set_online false client]>
                  (registered_clients st)
            ∧ offline_clients st'
              = offline_clients st ++ [Client.set_online false client]
            ∧ clients st' = (ClientDAO.set_offline (clients st) name).1
        | None =>
            registered_clients st' = registered_clients st
            ∧ offline_clients st' = offline_clients st
            ∧ clients st' = clients st
        end
    | None =>
        registered_clients st' = registered_clients st
        ∧ offline_clients st' = offline_clients st
        ∧ clients st' = clients st
    end.
Proof.
  intros Hws. unfold disconnect.
  destruct (list_remove_elem _ _ Hws) as [conns ->]. simpl.
  destruct (truthy client_name) as [name|]; [|done]. simpl.
  by destruct (registered_clients st !! name).
Qed.

Lemma truthy_Some client_name name :
  truthy client_name = Some name ↔ client_name = Some name ∧ name ≠ "".
Proof.
  destruct client_name as [[|a s]|]; simpl; naive_solver.
Qed.

Lemma step_channels_ok st e : channels_ok st → channels_ok (step L st e).
Proof.
  intros (Hnd & Hlive & Hbound).
  destruct e as [|ws data now|ws|name]; simpl.
  - unfold channels_ok, connect; simpl. split_and!.
    + apply NoDup_app. split_and!; [done| |apply NoDup_singleton].
      intros x Hx ->%list_elem_of_singleton. apply Hbound in Hx. lia.
    + intros ws. rewrite elem_of_app, list_elem_of_singleton, Hlive.
      rewrite lookup_insert_is_Some.
      destruct (decide (next_websocket st = ws)); naive_solver.
    + intros ws. rewrite elem_of_app, list_elem_of_singleton.
      intros [Hx%Hbound| ->]; lia.
  - destruct (endpoints st !! ws) as [cn|] eqn:Hws; [|done].
    destruct (receive_view ws data now st) as (Hc & Hn & Hv).
    unfold channels_ok. rewrite Hc, Hn. split_and!; [done| |done].
    destruct (announced L data) as [client|].
    + destruct Hv as (_ & _ & -> & _). intros ws'.
      rewrite Hlive, lookup_insert_is_Some.
      destruct (decide (ws = ws')) as [<-|Hne]; [|naive_solver].
      rewrite Hws. naive_solver.
    + by destruct Hv as (_ & _ & -> & _).
  - destruct (endpoints st !! ws) as [cn|] eqn:Hws; [|done].
    assert (ws ∈ active_connections st) as Hin by (by apply Hlive).
    destruct (disconnect_view ws cn st Hin) as (Hrm & Hn & He & _).
    destruct (list_remove_NoDup _ _ _ Hnd Hrm) as [Hnd' Hmem].
    unfold channels_ok. rewrite Hn, He. split_and!; [done| |].
    + intros ws'. rewrite Hmem, Hlive, lookup_delete_is_Some. naive_solver.
    + intros ws' Hws'. apply Hmem in Hws' as [Hws' _]. by apply Hbound.
  - unfold delete_client, ClientDAO.delete.
    by destruct (clients st !! name).
Qed.

Lemma initial_channels_ok : channels_ok initial.
Proof.
  split_and!; simpl.
  - apply NoDup_nil_2.
  - intros ws. rewrite lookup_empty. split; [by intros ?%elem_of_nil|].
    by intros [? ?].
  - by intros ws ?%elem_of_nil.
Qed.

Lemma run_channels_ok st evs : channels_ok st → channels_ok (run L st evs).
Proof.
  revert st. induction evs as [|e evs IH]; intros st Hst; [done|].
  apply IH. by apply step_channels_ok.
Qed.
End monitor.

Section offline_transition.
Context (L : Lib).
Import server.

(** After the disconnect of a channel no endpoint serves it. *)
Lemma disconnect_endpoint_gone st ws :
  endpoints (step L st (Disconnect ws)) !! ws = None.
Proof.
  simpl. destruct (endpoints st !! ws) as [cn|] eqn:Hws; [|done].
  unfold disconnect.
  destruct (list_remove ws (active_connections st)); simpl;
    [|apply lookup_delete_eq].
  destruct (truthy cn) as [name|]; simpl; [|apply lookup_delete_eq].
  destruct (registered_clients st !! name); simpl; apply lookup_delete_eq.
Qed.

Lemma disconnect_again st ws client_name :
  ws ∉ active_connections st →
  let again := disconnect ws client_name st in
  list_remove ws (active_connections st) = Raise ValueError
  ∧ registered_clients again = registered_clients st
  ∧ offline_clients again = offline_clients st
  ∧ clients again = clients st
  ∧ records again = records st
  ∧ sent again = sent st
  ∧ log again = log st.
Proof.
  intros Hws. unfold disconnect.
  by rewrite (list_remove_absent _ _ Hws).
Qed.
End offline_transition.

(** C2. Whatever the monitor has been through, a second disconnect of a
    channel changes nothing: the state after two disconnects is the state
    after one.  Were the handler entered again for that channel, with any
    value of [client_name], [manager.disconnect] would raise before the
    offline transition: directory cache, offline list, tables, sent frames
    and log stay as the first disconnect left them. *)
Theorem disconnect_twice_is_disconnect_once (L : Lib)
    (evs : list server.event) (ws : nat) :
  let st := server.run L server.initial evs in
  let once := server.step L st (server.Disconnect ws) in
  let twice := server.step L once (server.Disconnect ws) in
  twice = once
  ∧ ∀ client_name,
      let again := server.disconnect ws client_name once in
      list_remove ws (server.active_connections once) = Raise ValueError
      ∧ server.registered_clients again = server.registered_clients once
      ∧ server.offline_clients again = server.offline_clients once
      ∧ server.clients again = server.clients once
      ∧ server.records again = server.records once
      ∧ server.sent again = server.sent once
      ∧ server.log again = server.log once.
Proof.
  intros st once twice.
  assert (server.endpoints once !! ws = None) as Hgone
    by apply disconnect_endpoint_gone.
  split.
  - subst twice. simpl. by rewrite Hgone.
  - intros client_name. apply disconnect_again.
    assert (server.channels_ok once) as (_ & Hlive & _).
    { apply step_channels_ok, run_channels_ok, initial_channels_ok. }
    rewrite Hlive, Hgone. by intros [? ?].
Qed.

(** An agent comes online and its channel is closed twice: it is in the
    offline list once. *)
Example disconnect_twice_offline_once :
  let hello := frame (Command.create_client_online
                        (Client.mk "3F2A9C1B" "127.0.0.1" true)) in
  server.offline_clients
    (server.run strict_lib server.initial
       [server.Accept; server.Receive 0 hello 7%Z;
        server.Disconnect 0; server.Disconnect 0])
  = [Client.mk "3F2A9C1B" "127.0.0.1" false].
Proof. by vm_compute. Qed.

(** Two channels under one name are two sessions: the end of each runs the
    offline transition, and the agent is in the offline list twice. *)
Example two_channels_offline_twice :
  let hello := frame (Command.create_client_online
                        (Client.mk "3F2A9C1B" "127.0.0.1" true)) in
  server.offline_clients
    (server.run strict_lib server.initial
       [server.Accept; server.Receive 0 hello 1%Z;
        server.Accept; server.Receive 1 hello 2%Z;
        server.Disconnect 0; server.Disconnect 1])
  = [Client.mk "3F2A9C1B" "127.0.0.1" false;
     Client.mk "3F2A9C1B" "127.0.0.1" false].
Proof. by vm_compute. Qed.

(** C4, as the code has it.  [delete_client] succeeds exactly when table
    [clients] has a row for the name, whatever the flag of that row: the
    row, the cache entry and the entries of the offline list go.  It touches
    no channel and no endpoint, so an online agent is deleted without being
    forced offline and its session goes on.  Without a row nothing changes
    and the answer is an error. *)
Theorem delete_client_leaves_sessions (st : server.state) (name : string) :
  let st' := (server.delete_client name st).1 in
  let response := (server.delete_client name st).2 in
  server.endpoints st' = server.endpoints st
  ∧ server.active_connections st' = server.active_connections st
  ∧ server.sent st' = server.sent st
  ∧ server.records st' = server.records st
  ∧ (server.clients st !! name = None →
       st' = st ∧ response = JDict [("error", JStr "Client not found")])
  ∧ (is_Some (server.clients st !! name) →
       response = JDict []
       ∧ server.clients st' = delete name (server.clients st)
       ∧ server.registered_clients st'
         = delete name (server.registered_clients st)
       ∧ server.offline_clients st'
         = server.without name (server.offline_clients st)).
Proof.
  unfold server.delete_client, ClientDAO.delete.
  destruct (server.clients st !! name) as [row|]; simpl.
  - by split_and!.
  - split_and!; by try intros [? ?].
Qed.

Lemma delete_client_leaves_sessions_witness :
  let hello := frame (Command.create_client_online
                        (Client.mk "3F2A9C1B" "127.0.0.1" true)) in
  let st := server.run strict_lib server.initial
              [server.Accept; server.Receive 0 hello 7%Z] in
  let st' := (server.delete_client "3F2A9C1B" st).1 in
  server.clients st' = delete "3F2A9C1B" (server.clients st)
  ∧ server.endpoints st' = server.endpoints st.
Proof.
  intros hello st st'.
  pose proof (delete_client_leaves_sessions st "3F2A9C1B")
    as (Hep & _ & _ & _ & _ & Hrow).
  split; [|exact Hep].
  apply Hrow. eexists. vm_compute. reflexivity.
Defined.

(** C4 as stated fails: an online agent is deleted at once, and its
    session outlives its identity. *)
Lemma delete_online_agent_keeps_session :
  let hello := frame (Command.create_client_online
                        (Client.mk "3F2A9C1B" "127.0.0.1" true)) in
  let st := server.run strict_lib server.initial
              [server.Accept; server.Receive 0 hello 7%Z] in
  let st' := server.step strict_lib st (server.DeleteClient "3F2A9C1B") in
  server.stored_online st "3F2A9C1B"
  ∧ server.has_session st' "3F2A9C1B"
  ∧ 0 ∈ server.active_connections st'
  ∧ server.clients st' !! "3F2A9C1B" = None
  ∧ server.registered_clients st' !! "3F2A9C1B" = None
  ∧ server.offline_clients st' = [].
Proof.
  intros hello st st'. split_and!.
  - eexists. by vm_compute.
  - exists 0. by vm_compute.
  - vm_compute. left.
  - by vm_compute.
  - by vm_compute.
  - by vm_compute.
Qed.

(** ** The online flag and the sessions *)

Lemma create_or_update_lookup tbl name ip online now :
  ∃ row, ClientDAO.create_or_update tbl name ip online now !! name = Some row
         ∧ DBClient.online row = online.
Proof.
  unfold ClientDAO.create_or_update.
  destruct (tbl !! name); rewrite lookup_insert_eq; eauto.
Qed.

Lemma create_or_update_lookup_ne tbl name name' ip online now :
  name ≠ name' →
  ClientDAO.create_or_update tbl name ip online now !! name' = tbl !! name'.
Proof.
  intros Hne. unfold ClientDAO.create_or_update.
  by destruct (tbl !! name); rewrite lookup_insert_ne.
Qed.

Lemma set_offline_lookup tbl name row :
  (ClientDAO.set_offline tbl name).1 !! name = Some row →
  DBClient.online row = false.
Proof.
  unfold ClientDAO.set_offline.
  destruct (tbl !! name) eqn:Hrow; simpl.
  - rewrite lookup_insert_eq. by intros [= <-].
  - by rewrite Hrow.
Qed.

Lemma set_offline_lookup_ne tbl name name' :
  name ≠ name' →
  (ClientDAO.set_offline tbl name).1 !! name' = tbl !! name'.
Proof.
  intros Hne. unfold ClientDAO.set_offline.
  destruct (tbl !! name); simpl; [|done]. by rewrite lookup_insert_ne.
Qed.

Section flag.
Context (L : Lib).
Import server.

Lemma listed_online_stored st name :
  listed_online st name ↔ stored_online st name.
Proof.
  unfold listed_online, stored_online, get_clients, ClientDAO.get_online.
  split.
  - intros [ip Hin]. apply list_elem_of_fmap in Hin as ([k row] & Heq & Hin).
    simpl in Heq. injection Heq as -> -> Hon.
    apply elem_of_map_to_list, map_lookup_filter_Some in Hin as [Hrow _].
    by exists row.
  - intros (row & Hrow & Hon). exists (DBClient.ip row).
    apply list_elem_of_fmap. exists (name, row). simpl. rewrite Hon.
    split; [done|].
    by apply elem_of_map_to_list, map_lookup_filter_Some.
Qed.





End flag.




(** Two more ways out of the discipline.  The handler takes an empty
    [client_name] for none, so an agent with the empty name stays online
    after its channel ends; and a channel that brings a second name online
    forgets the first, which stays online with no channel. *)
Example empty_name_stays_online :
  let hello := frame (Command.create_client_online
                        (Client.mk "" "127.0.0.1" true)) in
  let st := server.run strict_lib server.initial
              [server.Accept; server.Receive 0 hello 1%Z;
               server.Disconnect 0] in
  server.stored_online st "" ∧ server.endpoints st = ∅.
Proof. split; [eexists|]; by vm_compute. Qed.

Example second_name_orphans_first :
  let hello name := frame (Command.create_client_online
                             (Client.mk name "127.0.0.1" true)) in
  let st := server.run strict_lib server.initial
              [server.Accept; server.Receive 0 (hello "3F2A9C1B") 1%Z;
               server.Receive 0 (hello "77AA01FE") 2%Z;
               server.Disconnect 0] in
  server.stored_online st "3F2A9C1B" ∧ server.endpoints st = ∅
  ∧ ¬ server.stored_online st "77AA01FE".
Proof.
  split_and!; [eexists; by vm_compute|by vm_compute|].
  intros (row & Hrow & Hon). vm_compute in Hrow. by simplify_eq.
Qed.

(** ** The latest sample of every agent *)

Section latest.
Import RecordDAO.

Lemma max_timestamp_None name tbl :
  max_timestamp name tbl = None ↔ ∀ r, r ∈ tbl → DBRecord.name r ≠ name.
Proof.
  induction tbl as [|r0 tbl IH]; simpl.
  - split; [|done]. by intros _ r ?%elem_of_nil.
  - destruct (decide (DBRecord.name r0 = name)) as [Heq|Hne].
    + split.
      * by destruct (max_timestamp name tbl).
      * intros H. destruct (H r0); [by left|done].
    + rewrite IH. split.
      * intros H r [->|Hr]%elem_of_cons; auto.
      * intros H r Hr. apply H. by right.
Qed.

(** The maximum of the group of [name] is the timestamp of one of its rows
    and bounds them all. *)
Lemma max_timestamp_Some name tbl m :
  max_timestamp name tbl = Some m ↔
  (∃ r, r ∈ tbl ∧ DBRecord.name r = name ∧ DBRecord.timestamp r = m)
  ∧ (∀ r, r ∈ tbl → DBRecord.name r = name → (DBRecord.timestamp r ≤ m)%Z).
Proof.
  revert m. induction tbl as [|r0 tbl IH]; intros m; simpl.
  - split; [done|]. by intros [(r & ?%elem_of_nil & _) _].
  - destruct (decide (DBRecord.name r0 = name)) as [Heq|Hne].
    + destruct (max_timestamp name tbl) as [m0|] eqn:Hm0.
      * specialize (IH m0). destruct IH as [IH _].
        destruct (IH eq_refl) as [(r1 & Hr1 & Hn1 & Ht1) Hle].
        split.
        -- intros [= <-]. split.
           ++ destruct (Z.max_spec (DBRecord.timestamp r0) m0)
                as [[_ ->]|[_ ->]].
              ** exists r1. split_and!; [by right|done|done].
              ** exists r0. split_and!; [by left|done|done].
           ++ intros r [->|Hr]%elem_of_cons Hn; [lia|].
              specialize (Hle r Hr Hn). lia.
        -- intros [(r & Hr & Hn & Ht) Hall]. f_equal.
           assert (DBRecord.timestamp r0 ≤ m)%Z by (apply Hall; [by left|done]).
           assert (m0 ≤ m)%Z.
           { rewrite <- Ht1. apply Hall; [by right|done]. }
           apply elem_of_cons in Hr as [->|Hr]; [lia|].
           specialize (Hle r Hr Hn). lia.
      * pose proof (proj1 (max_timestamp_None _ _) Hm0) as Hnone.
        clear Hm0. rename Hnone into Hm0. split.
        -- intros [= <-]. split.
           ++ exists r0. split_and!; [by left|done|done].
           ++ intros r [->|Hr]%elem_of_cons Hn; [lia|].
              by destruct (Hm0 r Hr).
        -- intros [(r & Hr & Hn & Ht) Hall]. f_equal.
           apply elem_of_cons in Hr as [->|Hr]; [done|].
           by destruct (Hm0 r Hr).
    + rewrite IH. split.
      * intros [(r & Hr & Hn & Ht) Hall]. split.
        -- exists r. split_and!; [by right|done|done].
        -- intros r' [->|Hr']%elem_of_cons Hn'; [done|]. by apply Hall.
      * intros [(r & Hr & Hn & Ht) Hall]. split.
        -- apply elem_of_cons in Hr as [->|Hr]; [done|]. by exists r.
        -- intros r' Hr' Hn'. apply Hall; [by right|done].
Qed.

Lemma elem_of_subquery tbl name m :
  (name, m) ∈ subquery tbl ↔ max_timestamp name tbl = Some m.
Proof.
  unfold subquery. rewrite list_elem_of_omap. split.
  - intros (n & _ & Hn). destruct (max_timestamp n tbl) eqn:Hm; [|done].
    simpl in Hn. by simplify_eq.
  - intros Hm. exists name. rewrite Hm. split; [|done].
    apply elem_of_remove_dups, list_elem_of_fmap.
    apply max_timestamp_Some in Hm as [(r & Hr & Hn & _) _]. by exists r.
Qed.

(** The rows of [get_all_latest]: every row that has the largest timestamp
    of its name, ties included. *)
Lemma elem_of_get_all_latest tbl r :
  r ∈ get_all_latest tbl ↔
  r ∈ tbl ∧ ∀ r', r' ∈ tbl → DBRecord.name r' = DBRecord.name r →
                  (DBRecord.timestamp r' ≤ DBRecord.timestamp r)%Z.
Proof.
  unfold get_all_latest. rewrite list_elem_of_bind. split.
  - intros (r0 & Hin & Hr0). apply list_elem_of_bind in Hin
      as ([n m] & Hin & Hg). simpl in Hin.
    destruct (decide _) as [[Hn Ht]|]; [|by apply elem_of_nil in Hin].
    apply list_elem_of_singleton in Hin as ->. split; [done|].
    apply elem_of_subquery, max_timestamp_Some in Hg as [_ Hall].
    intros r' Hr' Hn'. rewrite Ht. apply Hall; [done|congruence].
  - intros [Hr Hall]. exists r. split; [|done].
    apply list_elem_of_bind.
    exists (DBRecord.name r, DBRecord.timestamp r). split.
    + simpl. rewrite decide_True by done. by left.
    + apply elem_of_subquery, max_timestamp_Some. split; [|done].
      by exists r.
Qed.

(** The sample that the specification selects for a name is one of the rows
    of that name with the largest timestamp. *)
Lemma spec_most_recent_Some name tbl best :
  spec_most_recent name tbl = Some best →
  best ∈ tbl ∧ DBRecord.name best = name
  ∧ max_timestamp name tbl = Some (DBRecord.timestamp best).
Proof.
  revert best. induction tbl as [|r tbl IH]; intros best; simpl; [done|].
  destruct (decide (DBRecord.name r = name)) as [Hn|Hn].
  - destruct (spec_most_recent name tbl) as [b|] eqn:Hb.
    + destruct (IH b eq_refl) as (Hin & Hname & ->).
      destruct (Z.ltb_spec (DBRecord.timestamp b) (DBRecord.timestamp r));
        intros [= <-].
      * split_and!; [by left|done|]. f_equal. lia.
      * split_and!; [by right|done|]. f_equal. lia.
    + intros [= <-]. split_and!; [by left|done|].
      destruct (max_timestamp name tbl) as [m|] eqn:Hm; [|done].
      apply max_timestamp_Some in Hm as [(r' & Hr' & Hn' & _) _].
      clear IH. induction tbl as [|r0 tbl IH']; [by apply elem_of_nil in Hr'|].
      simpl in Hb. destruct (decide (DBRecord.name r0 = name)).
      * by destruct (spec_most_recent name tbl) as [b0|];
          [destruct (_ <? _)%Z|].
      * apply elem_of_cons in Hr' as [->|Hr']; [done|]. by apply IH'.
  - intros Hbest. destruct (IH best Hbest) as (Hin & Hname & Hm).
    split_and!; [by right|done|done].
Qed.

Lemma spec_most_recent_None name tbl r :
  spec_most_recent name tbl = None → r ∈ tbl → DBRecord.name r ≠ name.
Proof.
  induction tbl as [|r0 tbl IH]; simpl; [by intros _ ?%elem_of_nil|].
  destruct (decide (DBRecord.name r0 = name)) as [Hn|Hn].
  - by destruct (spec_most_recent name tbl) as [b|]; [destruct (_ <? _)%Z|].
  - intros Hnone [->|Hr]%elem_of_cons; [done|]. by apply IH.
Qed.

(** Where no two samples of an agent share a timestamp, the query of the code
    and the query of the specification return the same samples. *)
Lemma get_all_latest_without_ties tbl r :
  (∀ r1 r2, r1 ∈ tbl → r2 ∈ tbl → DBRecord.name r1 = DBRecord.name r2 →
            DBRecord.timestamp r1 = DBRecord.timestamp r2 → r1 = r2) →
  r ∈ get_all_latest tbl ↔ r ∈ spec_most_recent_per_agent tbl.
Proof.
  intros Hties. rewrite elem_of_get_all_latest.
  unfold spec_most_recent_per_agent. rewrite list_elem_of_omap. split.
  - intros [Hr Hmax]. exists (DBRecord.name r). split.
    + apply elem_of_remove_dups, list_elem_of_fmap. by exists r.
    + destruct (spec_most_recent (DBRecord.name r) tbl) as [b|] eqn:Hb.
      * destruct (spec_most_recent_Some _ _ _ Hb) as (Hin & Hname & Hm).
        f_equal. apply Hties; [done|done|done|].
        apply max_timestamp_Some in Hm as [_ Hle].
        specialize (Hle r Hr eq_refl). specialize (Hmax b Hin Hname). lia.
      * by destruct (spec_most_recent_None _ _ r Hb Hr).
  - intros (n & _ & Hb).
    destruct (spec_most_recent_Some _ _ _ Hb) as (Hin & Hname & Hm).
    split; [done|]. apply max_timestamp_Some in Hm as [_ Hle].
    intros r' Hr' Hn'. apply Hle; [done|congruence].
Qed.
End latest.

(** C5. Two samples of one agent carry the same, highest timestamp: the
    query returns both of them, where the specification asks for the later
    one alone. *)
Theorem get_all_latest_returns_ties :
  let sample id load :=
    DBRecord.mk id "3F2A9C1B" "x86_64Linux6.1" load 8
      (S754_finite false 1 4) (S754_finite false 1 3) (S754_finite false 25 1)
      (S754_finite false 1 9) (S754_finite false 1 8) (S754_finite false 25 1)
      1700000000000000%Z in
  let first := sample 1%Z (S754_finite false 3 (-2)) in
  let second := sample 2%Z (S754_finite false 5 (-2)) in
  RecordDAO.get_all_latest [first; second] = [first; second]
  ∧ RecordDAO.spec_most_recent_per_agent [first; second] = [second].
Proof. split; by vm_compute. Qed.

(** ** The round trip of a sample *)

Section round_trip.
Context (L : Lib).




End round_trip.



(** ** Leaving the Streaming state *)

Section streaming.
Context (L : Lib) (client_name : string).
Import client.

Lemma step_winding_down st e :
  winding_down st → winding_down (step L client_name st e).
Proof.
  unfold winding_down.
  destruct st as [run par rep mc out]; destruct e as [| | |o h| |]; simpl;
    unfold resume, iteration, enter_finally; simpl;
    destruct par, rep, mc, run; simpl; try done; try (by left);
    try (by right); try naive_solver;
    intros _; repeat case_match; simpl; done.
Qed.

(** A parent that has left its receive loop does not come back to it, and
    from then on nothing is emitted. *)
Lemma step_quiet st e :
  parent st ≠ Receiving → winding_down st →
  parent (step L client_name st e) ≠ Receiving
  ∧ emitted (step L client_name st e) = emitted st.
Proof.
  unfold winding_down.
  destruct st as [run par rep mc out]; destruct e as [| | |o h| |]; simpl;
    unfold resume, iteration, enter_finally; simpl;
    destruct par, rep, mc, run; simpl; try done; naive_solver.
Qed.

Lemma run_quiet st evs :
  parent st ≠ Receiving → winding_down st →
  emitted (run L client_name st evs) = emitted st.
Proof.
  revert st. induction evs as [|e evs IH]; intros st Hpar Hwd; [done|].
  unfold run in *. simpl.
  destruct (step_quiet st e Hpar Hwd) as [Hpar' <-].
  apply IH; [done|]. by apply step_winding_down.
Qed.

Lemma run_winding_down st evs :
  winding_down st → winding_down (run L client_name st evs).
Proof.
  revert st. induction evs as [|e evs IH]; intros st Hwd; [done|].
  apply IH. by apply step_winding_down.
Qed.

(** The closure of the channel reaches a parent in its receive loop while
    the report task sleeps: the cancellation is pending at once. *)
Lemma closure_requests_cancel st e :
  parent st = Receiving →
  report st = Sleeping ∨ report st = Backoff →
  parent (step L client_name st e) = Awaiting →
  must_cancel (step L client_name st e) = true
  ∧ emitted (step L client_name st e) = emitted st.
Proof.
  destruct st as [run par rep mc out]; simpl. intros -> Hrep.
  destruct e as [| | |o h| |]; simpl; unfold resume, iteration, enter_finally;
    simpl; destruct Hrep as [-> | ->]; simpl; destruct run, mc; simpl;
    try done; repeat case_match; simpl; done.
Qed.

(** The parent gets past [await report_task] as soon as the loop has
    resumed the report task once. *)
Lemma await_completes st o h :
  parent st = Awaiting → winding_down st →
  parent (run L client_name st [Resume o h; Join]) = Left.
Proof.
  unfold winding_down.
  destruct st as [run par rep mc out]; simpl. intros ->.
  unfold resume; simpl. destruct rep, mc; simpl; naive_solver.
Qed.
End streaming.

(** C8. Follow the agent through any course of events from the moment
    Streaming begins.  When the parent is past its [finally] block the
    report task has ended.  From the moment the parent enters that block,
    which is when it requests the cancellation, no further report is
    emitted, whatever comes next; in particular when the request finds the
    report task asleep.  And the wait ends: once the loop has resumed the
    report task, the parent leaves the block. *)
Theorem report_task_cancelled_and_awaited (L : Lib) (client_name : string)
    (evs : list client.event) :
  let st := client.run L client_name client.streaming evs in
  (client.parent st = client.Left → client.done (client.report st) = true)
  ∧ (client.parent st ≠ client.Receiving →
       ∀ more, client.emitted (client.run L client_name st more)
               = client.emitted st)
  ∧ (∀ e, client.parent st = client.Receiving →
          client.report st = client.Sleeping
          ∨ client.report st = client.Backoff →
          client.parent (client.step L client_name st e) = client.Awaiting →
          client.must_cancel (client.step L client_name st e) = true
          ∧ ∀ more,
              client.emitted
                (client.run L client_name (client.step L client_name st e)
                   more)
              = client.emitted st)
  ∧ (client.parent st = client.Awaiting →
       ∀ o h, client.parent
                (client.run L client_name st
                   [client.Resume o h; client.Join])
              = client.Left).
Proof.
  intros st.
  assert (client.winding_down st) as Hwd.
  { apply run_winding_down. by simpl. }
  split_and!.
  - intros Hleft. unfold client.winding_down in Hwd. by rewrite Hleft in Hwd.
  - intros Hpar more. by apply run_quiet.
  - intros e Hpar Hrep Hnext.
    destruct (closure_requests_cancel L client_name st e Hpar Hrep Hnext)
      as [Hmc Hout].
    split; [done|]. intros more. rewrite <- Hout. apply run_quiet.
    + by rewrite Hnext.
    + by apply step_winding_down.
  - intros Hpar o h. by apply await_completes.
Qed.

(** The agent reports once, sleeps, and the channel closes: the report task
    is resumed with its timer fired and a fresh reading of the host, and
    emits nothing. *)
Lemma report_task_cancelled_and_awaited_witness :
  let h := SystemInfo.mk "x86_64Linux6.1" (S754_finite false 3 (-2))
             (Some 8%Z) 1700000000000%Z in
  let evs := [client.Resume client.Completed (Some h);
              client.Resume client.Completed (Some h)] in
  let st := client.run strict_lib "3F2A9C1B" client.streaming evs in
  let st' := client.step strict_lib "3F2A9C1B" st client.RecvClosed in
  client.report st = client.Sleeping
  ∧ length (client.emitted st) = 1
  ∧ client.must_cancel st' = true
  ∧ client.emitted
      (client.run strict_lib "3F2A9C1B" st'
         [client.Resume client.Completed (Some h); client.Join;
          client.Resume client.Completed (Some h)])
    = client.emitted st.
Proof.
  intros h evs st st'.
  pose proof (proj1 (proj2 (proj2
    (report_task_cancelled_and_awaited strict_lib "3F2A9C1B" evs)))
    client.RecvClosed eq_refl (or_introl eq_refl) eq_refl) as [Hmc Hquiet].
  split_and!; [reflexivity|reflexivity|exact Hmc|apply Hquiet].
Defined.

(** * Further properties of the code *)

(** ** The monitor: what every run keeps *)

Section monitor_runs.
Context (L : Lib).
Import server.

(** What one received text does to the store: nothing, or one more row. *)
Lemma receive_records ws data now st :
  records (receive L ws data now st) = records st
  ∨ ∃ row, records (receive L ws data now st) = records st ++ [row].
Proof.
  unfold receive, process.
  destruct (json_loads data) as [command_data|e]; simpl; [|by left].
  destruct (Command.validate command_data) as [command|e]; simpl;
    [|by left].
  case_decide.
  - unfold client_online.
    destruct (Client.validate L _) as [client|e]; simpl; by left.
  - case_decide; [|by left]. unfold client_report.
    destruct (Report.validate L _) as [report|e]; simpl; [|by left].
    unfold RecordDAO.create, RecordDAO.not_null. simpl.
    destruct (Report.memory_total report), (Report.memory_used report),
      (Report.memory_percent report), (Report.disk_total report),
      (Report.disk_used report), (Report.disk_percent report); simpl;
      try (by left).
    right. by eexists.
Qed.

Lemma step_records st e :
  records (step L st e) = records st
  ∨ ∃ row, records (step L st e) = records st ++ [row].
Proof.
  destruct e as [|ws data now|ws|name]; simpl.
  - by left.
  - destruct (endpoints st !! ws); [apply receive_records|by left].
  - left. destruct (endpoints st !! ws) as [cn|]; [|done].
    unfold disconnect. destruct (list_remove _ _); simpl; [|done].
    destruct (truthy cn) as [n|]; [|done].
    by destruct (registered_clients st !! n).
  - left. unfold delete_client, ClientDAO.delete.
    by destruct (clients st !! name).
Qed.

Lemma step_cache_ok st e : cache_ok st → cache_ok (step L st e).
Proof.
  intros [Hoff Hreg].
  destruct e as [|ws data now|ws|name]; simpl.
  - done.
  - destruct (endpoints st !! ws) as [cn|]; [|done].
    destruct (receive_view L ws data now st) as (_ & _ & Hv).
    unfold cache_ok, stored_online.
    destruct (announced L data) as [client|].
    + destruct Hv as (-> & -> & _ & ->).
      set (n := Client.name client). split.
      * intros c [Hne Hc]%list_elem_of_filter.
        destruct (Hoff c Hc) as (Hon & Hentry & Hrow).
        split_and!; [done|by rewrite lookup_insert_ne|].
        by rewrite create_or_update_lookup_ne.
      * intros m c. destruct (decide (n = m)) as [<-|Hne].
        -- rewrite lookup_insert_eq. intros [= <-]. split; [done|].
           destruct (create_or_update_lookup (clients st) n
                       (Client.ip client) true now) as (row & -> & _).
           by eexists.
        -- rewrite lookup_insert_ne by done.
           rewrite create_or_update_lookup_ne by done. apply Hreg.
    + by destruct Hv as (-> & -> & _ & ->).
  - destruct (endpoints st !! ws) as [cn|] eqn:Hws; [|done].
    unfold disconnect.
    destruct (list_remove ws (active_connections st)); simpl; [|done].
    destruct (truthy cn) as [n|]; [|done]. simpl.
    destruct (registered_clients st !! n) as [client|] eqn:Hn; [|done].
    destruct (Hreg n client Hn) as [Hname [row Hrow]].
    unfold cache_ok, stored_online, mark_offline; simpl.
    assert (∀ r, (ClientDAO.set_offline (clients st) n).1 !! n = Some r →
                 DBClient.online r = true → False) as Hcleared.
    { intros r Hr Hon. apply set_offline_lookup in Hr. congruence. }
    split.
    + intros c [Hc| ->%list_elem_of_singleton]%elem_of_app.
      * destruct (Hoff c Hc) as (Hon & Hentry & Hstored).
        destruct (decide (Client.name c = n)) as [Heq|Hne].
        -- rewrite Heq in Hentry. assert (client = c) as -> by congruence.
           split_and!; [done| |].
           ++ rewrite Heq, lookup_insert_eq. f_equal.
              destruct c as [cn' ci co]. simpl in *. by subst.
           ++ rewrite Heq. intros (r & Hr & Hron). eauto.
        -- split_and!; [done|by rewrite lookup_insert_ne|].
           by rewrite set_offline_lookup_ne.
      * simpl. rewrite Hname. split_and!; [done| |].
        -- by rewrite lookup_insert_eq.
        -- intros (r & Hr & Hron). eauto.
    + intros m c. destruct (decide (n = m)) as [<-|Hne].
      * rewrite lookup_insert_eq. intros [= <-]. split; [done|].
        unfold ClientDAO.set_offline. rewrite Hrow. simpl.
        rewrite lookup_insert_eq. by eexists.
      * rewrite lookup_insert_ne by done.
        rewrite set_offline_lookup_ne by done. apply Hreg.
  - unfold delete_client, ClientDAO.delete.
    destruct (clients st !! name) as [row|] eqn:Hrow; [|done]. simpl.
    unfold cache_ok, stored_online; simpl. split.
    + intros c [Hne Hc]%list_elem_of_filter.
      destruct (Hoff c Hc) as (Hon & Hentry & Hstored).
      split_and!; [done|by rewrite lookup_delete_ne|].
      by rewrite lookup_delete_ne.
    + intros m c. destruct (decide (name = m)) as [<-|Hne].
      * by rewrite lookup_delete_eq.
      * rewrite !lookup_delete_ne by done. apply Hreg.
Qed.

Lemma initial_cache_ok : cache_ok initial.
Proof.
  split; simpl.
  - by intros c ?%elem_of_nil.
  - intros n c. by rewrite lookup_empty.
Qed.

Lemma run_cache_ok st evs : cache_ok st → cache_ok (run L st evs).
Proof.
  revert st. induction evs as [|e evs IH]; intros st Hst; [done|].
  apply IH. by apply step_cache_ok.
Qed.
End monitor_runs.

(** X1. In every state the monitor can reach, the manager's list holds
    each channel once and holds exactly the channels whose endpoint is
    running; so the [remove] of the disconnect handler finds its channel,
    and the channel is gone from the list afterwards. *)
Theorem monitor_manager_tracks_endpoints (L : Lib)
    (evs : list server.event) :
  let st := server.run L server.initial evs in
  NoDup (server.active_connections st)
  ∧ (∀ ws, ws ∈ server.active_connections st
           ↔ is_Some (server.endpoints st !! ws))
  ∧ (∀ ws client_name,
       server.endpoints st !! ws = Some client_name →
       ∃ conns, list_remove ws (server.active_connections st) = Ok conns
                ∧ (ws ∉ conns)
                ∧ server.active_connections
                    (server.step L st (server.Disconnect ws)) = conns).
Proof.
  intros st.
  assert (server.channels_ok st) as (Hnd & Hlive & _).
  { apply run_channels_ok, initial_channels_ok. }
  split_and!; [done|done|].
  intros ws cn Hws.
  assert (ws ∈ server.active_connections st) as Hin by (apply Hlive; eauto).
  destruct (disconnect_view ws cn st Hin) as (Hrm & _).
  exists (server.active_connections (server.disconnect ws cn st)).
  split_and!; [done| |simpl; by rewrite Hws].
  destruct (list_remove_NoDup _ _ _ Hnd Hrm) as [_ Hmem].
  rewrite Hmem. naive_solver.
Qed.

(** X2. The store of samples only grows: whatever the monitor goes
    through, deletion of agents included, the rows that were stored stay
    where they are, and each event adds at most one row. *)
Theorem monitor_records_append_only (L : Lib) (st : server.state)
    (evs : list server.event) :
  ∃ rows, server.records (server.run L st evs) = server.records st ++ rows
          ∧ (length rows ≤ length evs)%nat.
Proof.
  revert st. induction evs as [|e evs IH]; intros st.
  - exists []. by rewrite app_nil_r.
  - unfold server.run in *. simpl. destruct (IH (server.step L st e))
      as (rows & -> & Hlen).
    destruct (step_records L st e) as [->|[row ->]].
    + exists rows. split; [done|]. simpl. lia.
    + exists (row :: rows). rewrite <- app_assoc. split; [done|]. simpl. lia.
Qed.

(** X3. In every state the monitor can reach, each client of the offline
    list is flagged offline, is the very entry that [registered_clients]
    holds for its name, and is not online in the table; and every entry of
    [registered_clients] stands under its own name and has a row in the
    table. *)
Theorem monitor_offline_list_mirrors_cache (L : Lib)
    (evs : list server.event) :
  let st := server.run L server.initial evs in
  (∀ c, c ∈ server.offline_clients st →
        Client.online c = false
        ∧ server.registered_clients st !! Client.name c = Some c
        ∧ ¬ server.stored_online st (Client.name c))
  ∧ (∀ n c, server.registered_clients st !! n = Some c →
            Client.name c = n ∧ is_Some (server.clients st !! n)).
Proof. apply run_cache_ok, initial_cache_ok. Qed.

Section alert.
Import server.

(** The loop of [get_offline_clients] over the offline list. *)
Lemma alert_loop_spec (answer : list (string * string * bool))
    (l : list Client.t) :
  let result :=
    foldl (λ answer client,
             if decide (Client.name client ∈ (λ c, c.1.1) <$> answer)
             then answer
             else answer ++ [(Client.name client, Client.ip client, false)])
          answer l in
  (NoDup ((λ c, c.1.1) <$> answer) → NoDup ((λ c, c.1.1) <$> result))
  ∧ (∀ n, n ∈ (λ c, c.1.1) <$> result
          ↔ n ∈ (λ c, c.1.1) <$> answer ∨ n ∈ Client.name <$> l)
  ∧ ((∀ c, c ∈ answer → c.2 = false) → ∀ c, c ∈ result → c.2 = false).
Proof.
  revert answer. induction l as [|client l IH]; intros answer; cbn [foldl].
  - split_and!; [done| |done]. intros n. rewrite fmap_nil, elem_of_nil.
    naive_solver.
  - destruct (decide (Client.name client ∈ (λ c, c.1.1) <$> answer))
      as [Hin|Hnin].
    + destruct (IH answer) as (Hnd & Hmem & Hflag).
      split_and!; [done| |done].
      intros n. rewrite Hmem, fmap_cons, elem_of_cons. naive_solver.
    + destruct (IH (answer ++ [(Client.name client, Client.ip client, false)]))
        as (Hnd & Hmem & Hflag).
      split_and!.
      * intros Hanswer. apply Hnd. rewrite fmap_app. simpl.
        apply NoDup_app. split_and!; [done| |apply NoDup_singleton].
        by intros n Hn ->%list_elem_of_singleton.
      * intros n. rewrite Hmem, fmap_app, elem_of_app, fmap_cons, fmap_cons,
          fmap_nil, !elem_of_cons, elem_of_nil. simpl. naive_solver.
      * intros Hanswer. apply Hflag.
        intros c [Hc| ->%list_elem_of_singleton]%elem_of_app; [|done].
        by apply Hanswer.
Qed.

Lemma alert_rows_spec (tbl : gmap string DBClient.t) :
  let rows := (λ kv : string * DBClient.t, (kv.1, DBClient.ip kv.2, false))
                <$> filter (λ kv, DBClient.online kv.2 = false)
                      (ClientDAO.get_all tbl) in
  NoDup ((λ c, c.1.1) <$> rows)
  ∧ (∀ n, n ∈ (λ c, c.1.1) <$> rows
          ↔ ∃ row, tbl !! n = Some row ∧ DBClient.online row = false)
  ∧ (∀ c, c ∈ rows → c.2 = false).
Proof.
  intros rows. subst rows. unfold ClientDAO.get_all. split_and!.
  - rewrite <- list_fmap_compose.
    apply (sublist_NoDup _ ((map_to_list tbl).*1));
      [apply NoDup_fst_map_to_list|].
    apply (fmap_sublist fst), sublist_filter.
  - intros n. rewrite <- list_fmap_compose, list_elem_of_fmap. split.
    + intros ([k row] & -> & [Hoff Hin]%list_elem_of_filter).
      apply elem_of_map_to_list in Hin. by exists row.
    + intros (row & Hrow & Hoff). exists (n, row). split; [done|].
      apply list_elem_of_filter. split; [done|].
      by apply elem_of_map_to_list.
  - intros c ([k row] & -> & _)%list_elem_of_fmap. done.
Qed.
End alert.

Lemma get_offline_clients_spec (st : server.state) :
  NoDup ((λ c, c.1.1) <$> server.get_offline_clients st)
  ∧ (∀ c, c ∈ server.get_offline_clients st → c.2 = false)
  ∧ (∀ n, n ∈ (λ c, c.1.1) <$> server.get_offline_clients st
          ↔ (∃ row, server.clients st !! n = Some row
                    ∧ DBClient.online row = false)
            ∨ n ∈ Client.name <$> server.offline_clients st).
Proof.
  unfold server.get_offline_clients.
  destruct (alert_rows_spec (server.clients st)) as (Hnd & Hmem & Hflag).
  destruct (alert_loop_spec
              ((λ kv : string * DBClient.t, (kv.1, DBClient.ip kv.2, false))
                 <$> filter (λ kv, DBClient.online kv.2 = false)
                       (ClientDAO.get_all (server.clients st)))
              (server.offline_clients st)) as (Hnd' & Hmem' & Hflag').
  split_and!; [by apply Hnd'|by apply Hflag'|].
  intros n. by rewrite Hmem', Hmem.
Qed.

(** X4. What [GET /alert] answers.  In any state, no name is listed
    twice, every entry is flagged offline, and the names are those of the
    rows that are not online and those of the offline list.  In every state
    the monitor can reach, an agent that [GET /clients] lists as online is
    not in the answer. *)
Theorem alert_lists_offline_agents_once (L : Lib) :
  (∀ st,
     NoDup ((λ c, c.1.1) <$> server.get_offline_clients st)
     ∧ (∀ c, c ∈ server.get_offline_clients st → c.2 = false)
     ∧ (∀ n, n ∈ (λ c, c.1.1) <$> server.get_offline_clients st
             ↔ (∃ row, server.clients st !! n = Some row
                       ∧ DBClient.online row = false)
               ∨ n ∈ Client.name <$> server.offline_clients st))
  ∧ (∀ evs n,
       let st := server.run L server.initial evs in
       server.listed_online st n →
       n ∉ (λ c, c.1.1) <$> server.get_offline_clients st).
Proof.
  split; [apply get_offline_clients_spec|].
  intros evs n st Hon. apply listed_online_stored in Hon.
  destruct (get_offline_clients_spec st) as (_ & _ & Hmem). rewrite Hmem.
  intros [(row & Hrow & Hoff)|Hcache].
  - destruct Hon as (row' & Hrow' & Hon'). congruence.
  - apply list_elem_of_fmap in Hcache as (c & -> & Hc).
    assert (server.cache_ok st) as [Hoffl _]
      by apply run_cache_ok, initial_cache_ok.
    by destruct (Hoffl c Hc) as (_ & _ & Hnot).
Qed.

(** An agent has gone offline and another is online: [/alert] names the
    first, [/clients] the second. *)
Example alert_and_clients :
  let hello name := frame (Command.create_client_online
                             (Client.mk name "127.0.0.1" true)) in
  let st := server.run strict_lib server.initial
              [server.Accept; server.Receive 0 (hello "3F2A9C1B") 1%Z;
               server.Accept; server.Receive 1 (hello "77AA01FE") 2%Z;
               server.Disconnect 0] in
  server.get_offline_clients st = [("3F2A9C1B", "127.0.0.1", false)]
  ∧ (λ c, c.1.1) <$> server.get_clients st = ["77AA01FE"].
Proof. by vm_compute. Qed.

(** ** The tables *)

(** X5. [create_or_update] and [get_by_name].  After the call the row of
    the name holds the address and flag of the call and was last seen now,
    and [Client.from_db] reads it back as the client of the call; a row that
    was there keeps its id and its time of creation; the rows of other names
    are untouched, and the names of the table are the old ones and this
    one. *)
Theorem create_or_update_then_get_by_name (tbl : gmap string DBClient.t)
    (name ip : string) (online : bool) (utcnow : datetime) :
  let tbl' := ClientDAO.create_or_update tbl name ip online utcnow in
  (∃ row, ClientDAO.get_by_name tbl' name = Some row
          ∧ DBClient.ip row = ip
          ∧ DBClient.online row = online
          ∧ DBClient.last_seen row = utcnow
          ∧ Client_from_db name row = Client.mk name ip online
          ∧ match ClientDAO.get_by_name tbl name with
            | Some old => DBClient.id row = DBClient.id old
                          ∧ DBClient.created_at row = DBClient.created_at old
            | None => DBClient.created_at row = utcnow
            end)
  ∧ (∀ other, other ≠ name →
              ClientDAO.get_by_name tbl' other
              = ClientDAO.get_by_name tbl other)
  ∧ dom tbl' = {[name]} ∪ dom tbl.
Proof.
  unfold ClientDAO.create_or_update, ClientDAO.get_by_name.
  destruct (tbl !! name) as [old|] eqn:Hold; simpl.
  - split_and!.
    + eexists. rewrite lookup_insert_eq. by split_and!.
    + intros other Hne. by rewrite lookup_insert_ne.
    + by rewrite dom_insert_L.
  - split_and!.
    + eexists. rewrite lookup_insert_eq. by split_and!.
    + intros other Hne. by rewrite lookup_insert_ne.
    + by rewrite dom_insert_L.
Qed.

(** X6. [set_offline] answers whether the name has a row.  It clears the
    flag of that row and nothing else: address, id and both times stay, so
    the time last seen is that of the last [create_or_update]; other rows
    are untouched.  Afterwards [get_online] does not return the name, and a
    second call changes nothing. *)
Theorem set_offline_clears_only_the_flag (tbl : gmap string DBClient.t)
    (name : string) :
  let tbl' := (ClientDAO.set_offline tbl name).1 in
  (ClientDAO.set_offline tbl name).2 = bool_decide (is_Some (tbl !! name))
  ∧ tbl' !! name
    = (λ r, DBClient.mk (DBClient.id r) (DBClient.ip r) false
              (DBClient.created_at r) (DBClient.last_seen r)) <$> tbl !! name
  ∧ (∀ other, other ≠ name → tbl' !! other = tbl !! other)
  ∧ (name ∉ (ClientDAO.get_online tbl').*1)
  ∧ (∀ other, other ≠ name →
              other ∈ (ClientDAO.get_online tbl').*1
              ↔ other ∈ (ClientDAO.get_online tbl).*1)
  ∧ (ClientDAO.set_offline tbl' name).1 = tbl'.
Proof.
  assert (∀ t n, n ∈ (ClientDAO.get_online t).*1
                 ↔ ∃ r, t !! n = Some r ∧ DBClient.online r = true) as Hlisted.
  { intros t n. unfold ClientDAO.get_online. rewrite list_elem_of_fmap. split.
    - intros ([k r] & -> & [Hr Hon]%elem_of_map_to_list%map_lookup_filter_Some).
      by exists r.
    - intros (r & Hr & Hon). exists (n, r). split; [done|].
      by apply elem_of_map_to_list, map_lookup_filter_Some. }
  unfold ClientDAO.set_offline.
  destruct (tbl !! name) as [row|] eqn:Hrow; simpl.
  - split_and!.
    + done.
    + by rewrite lookup_insert_eq.
    + intros other Hne. by rewrite lookup_insert_ne.
    + rewrite Hlisted, lookup_insert_eq. by intros (r & [= <-] & Hon).
    + intros other Hne. rewrite !Hlisted. by rewrite lookup_insert_ne.
    + rewrite lookup_insert_eq. simpl. by rewrite insert_insert_eq.
  - split_and!; try done.
    + rewrite Hlisted, Hrow. by intros (r & ? & _).
    + by rewrite Hrow.
Qed.

(** X7. [delete] answers whether the name had a row and removes it; the
    other rows stay.  A second call answers [False] and changes nothing.
    An agent that comes back after the deletion is a new row, created at
    the time of its return. *)
Theorem delete_forgets_the_row (tbl : gmap string DBClient.t)
    (name : string) :
  let tbl' := (ClientDAO.delete tbl name).1 in
  (ClientDAO.delete tbl name).2 = bool_decide (is_Some (tbl !! name))
  ∧ ClientDAO.get_by_name tbl' name = None
  ∧ (∀ other, other ≠ name → tbl' !! other = tbl !! other)
  ∧ ClientDAO.delete tbl' name = (tbl', false)
  ∧ (∀ ip online utcnow,
       ∃ row, ClientDAO.create_or_update tbl' name ip online utcnow !! name
              = Some row
              ∧ DBClient.created_at row = utcnow).
Proof.
  unfold ClientDAO.delete, ClientDAO.get_by_name.
  destruct (tbl !! name) as [row|] eqn:Hrow; simpl.
  - split_and!.
    + done.
    + apply lookup_delete_eq.
    + intros other Hne. by rewrite lookup_delete_ne.
    + by rewrite lookup_delete_eq.
    + intros ip online utcnow. unfold ClientDAO.create_or_update.
      rewrite lookup_delete_eq, lookup_insert_eq. by eexists.
  - split_and!; try done.
    + by rewrite Hrow.
    + intros ip online utcnow. unfold ClientDAO.create_or_update.
      rewrite Hrow, lookup_insert_eq. by eexists.
Qed.

(** ** The queries on samples *)

Section record_queries.
Import RecordDAO.

#[local] Instance newer_first_total : Total newer_first.
Proof. intros r1 r2. unfold newer_first. lia. Qed.

#[local] Instance newer_first_trans : Transitive newer_first.
Proof. intros r1 r2 r3. unfold newer_first. lia. Qed.

Lemma elem_of_order_by rows r :
  r ∈ order_by_timestamp_desc rows ↔ r ∈ rows.
Proof. unfold order_by_timestamp_desc. by rewrite merge_sort_Permutation. Qed.

Lemma order_by_sorted rows :
  StronglySorted newer_first (order_by_timestamp_desc rows).
Proof. apply StronglySorted_merge_sort; apply _. Qed.

Lemma order_by_length rows :
  length (order_by_timestamp_desc rows) = length rows.
Proof. unfold order_by_timestamp_desc. by rewrite merge_sort_Permutation. Qed.

End record_queries.

(** X8. [get_by_timerange] returns the samples of the named agent whose
    timestamp lies in the window, both bounds included, each as often as
    the table holds it, newest first.  A window whose end precedes its
    start gives nothing. *)
Theorem get_by_timerange_window (tbl : list DBRecord.t) (name : string)
    (start_time end_time : datetime) :
  let answer := RecordDAO.get_by_timerange tbl name start_time end_time in
  (∀ r, r ∈ answer ↔ r ∈ tbl ∧ DBRecord.name r = name
                     ∧ (start_time ≤ DBRecord.timestamp r ≤ end_time)%Z)
  ∧ answer ≡ₚ filter (λ r, DBRecord.name r = name
                           ∧ (start_time ≤ DBRecord.timestamp r)%Z
                           ∧ (DBRecord.timestamp r ≤ end_time)%Z) tbl
  ∧ StronglySorted RecordDAO.newer_first answer
  ∧ ((end_time < start_time)%Z → answer = []).
Proof.
  intros answer. subst answer. unfold RecordDAO.get_by_timerange.
  assert (∀ r, r ∈ RecordDAO.order_by_timestamp_desc
                     (filter (λ r, DBRecord.name r = name
                                   ∧ (start_time ≤ DBRecord.timestamp r)%Z
                                   ∧ (DBRecord.timestamp r ≤ end_time)%Z) tbl)
               ↔ r ∈ tbl ∧ DBRecord.name r = name
                 ∧ (start_time ≤ DBRecord.timestamp r ≤ end_time)%Z) as Hmem.
  { intros r. rewrite elem_of_order_by, list_elem_of_filter. naive_solver. }
  split_and!.
  - done.
  - apply merge_sort_Permutation.
  - apply order_by_sorted.
  - intros Hempty.
    destruct (RecordDAO.order_by_timestamp_desc _) as [|r rest] eqn:Hans;
      [done|].
    assert (r ∈ r :: rest) as Hr by (by left).
    apply Hmem in Hr. lia.
Qed.


(** X10. [get_by_client] returns the newest [limit] samples of the agent:
    the first samples of its history newest first, as many as the limit
    allows; its first row, when the limit is not zero, is the row of
    [get_latest_by_client]. *)
Theorem get_by_client_newest (tbl : list DBRecord.t) (name : string)
    (limit : nat) :
  let answer := RecordDAO.get_by_client tbl name limit in
  length answer
    = (limit `min` length (filter (λ r, DBRecord.name r = name) tbl))%nat
  ∧ (∀ r, r ∈ answer → r ∈ tbl ∧ DBRecord.name r = name)
  ∧ StronglySorted RecordDAO.newer_first answer
  ∧ (∀ r r', r ∈ answer → r' ∈ tbl → DBRecord.name r' = name →
             r' ∉ answer →
             (DBRecord.timestamp r' ≤ DBRecord.timestamp r)%Z)
  ∧ (limit ≠ 0%nat →
       head answer = RecordDAO.get_latest_by_client tbl name).
Proof.
  intros answer. subst answer.
  unfold RecordDAO.get_by_client, RecordDAO.get_latest_by_client.
  set (rows := filter (λ r, DBRecord.name r = name) tbl).
  pose proof (order_by_sorted rows) as Hsorted.
  rewrite <- (take_drop limit (RecordDAO.order_by_timestamp_desc rows))
    in Hsorted.
  split_and!.
  - by rewrite length_take, order_by_length.
  - intros r (i & Hr%list_elem_of_lookup_2 & _)%elem_of_take.
    rewrite elem_of_order_by in Hr. subst rows.
    apply list_elem_of_filter in Hr. naive_solver.
  - by apply StronglySorted_app_1_l in Hsorted.
  - intros r r' Hr Hr' Hname Hout.
    assert (r' ∈ RecordDAO.order_by_timestamp_desc rows) as Hin.
    { apply elem_of_order_by, list_elem_of_filter. by split. }
    rewrite <- (take_drop limit (RecordDAO.order_by_timestamp_desc rows))
      in Hin.
    apply elem_of_app in Hin as [Hin|Hin]; [done|].
    by apply (StronglySorted_app_1_elem_of _ _ _ r r' Hsorted).
  - intros Hlimit. destruct limit as [|limit]; [done|].
    by destruct (RecordDAO.order_by_timestamp_desc rows).
Qed.

(** Three samples of an agent and one of another. *)
Example get_by_client_two_of_three :
  let sample id name t :=
    DBRecord.mk id name "x86_64Linux6.1" (S754_finite false 3 (-2)) 8
      (S754_finite false 1 4) (S754_finite false 1 3) (S754_finite false 25 1)
      (S754_finite false 1 9) (S754_finite false 1 8) (S754_finite false 25 1)
      t in
  let tbl := [sample 1 "3F2A9C1B" 10; sample 2 "77AA01FE" 40;
              sample 3 "3F2A9C1B" 30; sample 4 "3F2A9C1B" 20]%Z in
  DBRecord.id <$> RecordDAO.get_by_client tbl "3F2A9C1B" 2 = [3; 4]%Z
  ∧ DBRecord.id <$> RecordDAO.get_by_timerange tbl "3F2A9C1B" 10%Z 20%Z
    = [4; 1]%Z
  ∧ DBRecord.id <$> RecordDAO.get_latest_by_client tbl "3F2A9C1B"
    = Some 3%Z.
Proof. by vm_compute. Qed.


(** X12. [ConfigDAO.set] and [get_by_key].  After the call the key holds
    the value and the description of the call, so a call without a
    description erases the one that was stored; the other keys are
    untouched; the same call again changes nothing; and [delete] of the key
    then succeeds and leaves no row. *)
Theorem config_set_then_get (tbl : gmap string DBConfig.t)
    (key value : string) (description : option string) (utcnow : datetime) :
  let tbl' := ConfigDAO.set tbl key value description utcnow in
  (∃ row, ConfigDAO.get_by_key tbl' key = Some row
          ∧ DBConfig.value row = value
          ∧ DBConfig.description row = description
          ∧ (∀ old, tbl !! key = Some old → DBConfig.id row = DBConfig.id old))
  ∧ (∀ other, other ≠ key →
              ConfigDAO.get_by_key tbl' other = ConfigDAO.get_by_key tbl other)
  ∧ (∀ later, ConfigDAO.set tbl' key value description later = tbl')
  ∧ (ConfigDAO.delete tbl' key).2 = true
  ∧ ConfigDAO.get_by_key (ConfigDAO.delete tbl' key).1 key = None.
Proof.
  unfold ConfigDAO.set, ConfigDAO.get_by_key, ConfigDAO.delete.
  destruct (tbl !! key) as [old|] eqn:Hold.
  - destruct (decide (DBConfig.value old = value
                      ∧ DBConfig.description old = description))
      as [[Hv Hd]|Hne].
    + rewrite Hold. split_and!; try done.
      * exists old. split_and!; try done. by intros ? [= <-].
      * intros later. by rewrite decide_True.
      * simpl. apply lookup_delete_eq.
    + rewrite lookup_insert_eq. split_and!; try done.
      * eexists. split_and!; try done. by intros ? [= <-].
      * intros other Hother. by rewrite lookup_insert_ne.
      * intros later. by rewrite decide_True.
      * simpl. apply lookup_delete_eq.
  - rewrite lookup_insert_eq. split_and!; try done.
    + eexists. by split_and!.
    + intros other Hother. by rewrite lookup_insert_ne.
    + intros later. by rewrite decide_True.
    + simpl. apply lookup_delete_eq.
Qed.

(** The web interface saves a value without a description. *)
Example config_description_erased :
  let tbl := ConfigDAO.set ∅ "monitor.cpu_warning" "70"
               (Some "CPU warning threshold") 1%Z in
  DBConfig.description
    <$> ConfigDAO.get_by_key
          (ConfigDAO.set tbl "monitor.cpu_warning" "75" None 2%Z)
          "monitor.cpu_warning"
  = Some None.
Proof. by vm_compute. Qed.

(** ** The register: what every run keeps *)

Lemma setitem_keys {V} k (v : V) d k' :
  k' ∈ (setitem k v d).*1 ↔ k' = k ∨ k' ∈ d.*1.
Proof.
  induction d as [|[k0 v0] d IH]; simpl.
  - rewrite list_elem_of_singleton, elem_of_nil. naive_solver.
  - destruct (decide (k0 = k)) as [->|Hne]; simpl.
    + rewrite !elem_of_cons. naive_solver.
    + rewrite !elem_of_cons, IH. naive_solver.
Qed.

Lemma setitem_NoDup {V} k (v : V) d : NoDup d.*1 → NoDup (setitem k v d).*1.
Proof.
  induction d as [|[k0 v0] d IH]; simpl.
  - intros _. apply NoDup_singleton.
  - intros [Hk0 Hnd]%NoDup_cons.
    destruct (decide (k0 = k)) as [->|Hne]; simpl.
    + by apply NoDup_cons.
    + apply NoDup_cons. split; [|by apply IH].
      rewrite setitem_keys. naive_solver.
Qed.

Lemma elem_of_setitem {V} k (v : V) d k' v' :
  (k', v') ∈ setitem k v d → (k' = k ∧ v' = v) ∨ (k', v') ∈ d.
Proof.
  induction d as [|[k0 v0] d IH]; simpl.
  - intros [= -> ->]%list_elem_of_singleton. by left.
  - destruct (decide (k0 = k)) as [->|Hne].
    + intros [[= -> ->]|Hin]%elem_of_cons; [by left|]. right. by right.
    + intros [[= -> ->]|Hin]%elem_of_cons; [right; by left|].
      destruct (IH Hin) as [?|?]; [by left|]. right. by right.
Qed.

(** [d[k] = v] leaves the first key of a dict that has one where it is. *)
Lemma setitem_head {V} k (v : V) k0 v0 d :
  ∃ d', setitem k v ((k0, v0) :: d)
        = (k0, if decide (k0 = k) then v else v0) :: d'
        ∧ (length d ≤ length d')%nat.
Proof.
  simpl. destruct (decide (k0 = k)) as [->|Hne].
  - by exists d.
  - exists (setitem k v d). split; [done|].
    clear. induction d as [|[k1 v1] d IH]; simpl; [lia|].
    destruct (decide (k1 = k)); simpl; lia.
Qed.

Section register_runs.
Context (L : Lib).
Import register.

(** A step changes the directory of monitors only by storing, under its
    address, a monitor without id. *)
Lemma step_registered_servers st e :
  registered_servers (step L st e) = registered_servers st
  ∨ ∃ ip, registered_servers (step L st e)
          = setitem ip (Server.mk None ip) (registered_servers st).
Proof.
  destruct e as [|ws data|ws]; simpl.
  - by left.
  - destruct (decide (ws ∈ endpoints st)); [|by left].
    unfold receive, process.
    destruct data as [command_data|]; simpl; [|by left].
    destruct (Command.validate command_data) as [command|err]; simpl;
      [|by left].
    case_decide.
    { destruct (Client.validate L _) as [client|err]; simpl; [|by left].
      left. by destruct (registered_servers st) as [|[??]?] eqn:Hsv. }
    case_decide.
    { destruct (Client.validate L _) as [client|err]; simpl; by left. }
    case_decide; [|by left].
    unfold Server.of_ip.
    destruct (as_str _) as [ip|]; simpl; [|by left].
    right. by exists ip.
  - destruct (decide (ws ∈ endpoints st)); [|by left].
    left. unfold disconnect. by destruct (list_remove _ _).
Qed.

Lemma step_directories_ok st e :
  directories_ok st → directories_ok (step L st e).
Proof.
  intros (Hcl & Hsv & Hndc & Hnds). unfold directories_ok.
  destruct (step_registered_clients L st e) as [->|(client & _ & ->)];
    destruct (step_registered_servers st e) as [->|(ip & ->)];
    split_and!; try done;
    try (intros k c [[-> ->]|Hin]%elem_of_setitem; by eauto);
    by apply setitem_NoDup.
Qed.

Lemma run_directories_ok st evs :
  directories_ok st → directories_ok (run L st evs).
Proof.
  revert st. induction evs as [|e evs IH]; intros st Hst; [done|].
  apply IH. by apply step_directories_ok.
Qed.

Lemma initial_directories_ok : directories_ok initial.
Proof.
  split_and!; simpl; try apply NoDup_nil_2; by intros ?? ?%elem_of_nil.
Qed.

Lemma register_receive_channels ws data st :
  active_connections (receive L ws data st) = active_connections st
  ∧ endpoints (receive L ws data st) = endpoints st
  ∧ next_websocket (receive L ws data st) = next_websocket st.
Proof.
  unfold receive, process.
  destruct data as [command_data|]; simpl; [|done].
  destruct (Command.validate command_data) as [command|err]; simpl; [|done].
  case_decide.
  { destruct (Client.validate L _) as [client|err]; simpl; [|done].
    by destruct (registered_servers st) as [|[??]?]. }
  case_decide.
  { by destruct (Client.validate L _) as [client|err]. }
  case_decide; [|done].
  by destruct (Server.of_ip _).
Qed.

Lemma register_step_channels_ok st e :
  channels_ok st → channels_ok (step L st e).
Proof.
  intros (Hnd & Hlive & Hbound). unfold channels_ok.
  destruct e as [|ws data|ws]; simpl.
  - split_and!.
    + apply NoDup_app. split_and!; [done| |apply NoDup_singleton].
      intros x Hx ->%list_elem_of_singleton. apply Hbound in Hx. lia.
    + intros ws. rewrite elem_of_app, list_elem_of_singleton, Hlive.
      set_solver.
    + intros ws. rewrite elem_of_app, list_elem_of_singleton.
      intros [Hx%Hbound| ->]; lia.
  - destruct (decide (ws ∈ endpoints st)); [|done].
    by destruct (register_receive_channels ws data st) as (-> & -> & ->).
  - destruct (decide (ws ∈ endpoints st)) as [Hws|]; [|done].
    unfold disconnect.
    destruct (list_remove_elem ws (active_connections st)) as [conns Hrm];
      [by apply Hlive|].
    rewrite Hrm. simpl.
    destruct (list_remove_NoDup _ _ _ Hnd Hrm) as [Hnd' Hmem].
    split_and!; [done| |].
    + intros ws'. rewrite Hmem, Hlive. set_solver.
    + intros ws' Hws'. apply Hmem in Hws' as [Hws' _]. by apply Hbound.
Qed.

Lemma register_run_channels_ok st evs :
  channels_ok st → channels_ok (run L st evs).
Proof.
  revert st. induction evs as [|e evs IH]; intros st Hst; [done|].
  apply IH. by apply register_step_channels_ok.
Qed.

Lemma register_initial_channels_ok : channels_ok initial.
Proof.
  split_and!; simpl; [apply NoDup_nil_2|set_solver|].
  by intros ws ?%elem_of_nil.
Qed.
End register_runs.

Lemma getitem_elem_of {V} k (v : V) d :
  NoDup d.*1 → getitem k d = Some v ↔ (k, v) ∈ d.
Proof.
  induction d as [|[k0 v0] d IH]; simpl.
  - intros _. rewrite elem_of_nil. naive_solver.
  - intros [Hk0 Hnd]%NoDup_cons. rewrite elem_of_cons.
    destruct (decide (k0 = k)) as [->|Hne].
    + split; [naive_solver|]. intros [[= ->]|Hin]; [done|].
      destruct Hk0. apply list_elem_of_fmap. by exists (k, v).
    + rewrite (IH Hnd). naive_solver.
Qed.

(** X13. In every state the register can reach, each entry of the
    directory of agents stands under the name of its client, each entry of
    the directory of monitors under its address and without id, and no name
    or address is listed twice; so [GET /client/{name}] finds an agent
    exactly when [GET /clients] lists it under that name. *)
Theorem register_directories_keyed (L : Lib) (evs : list register.event) :
  let st := register.run L register.initial evs in
  (∀ k client, (k, client) ∈ register.registered_clients st →
               Client.name client = k)
  ∧ (∀ k server, (k, server) ∈ register.registered_servers st →
                 server = Server.mk None k)
  ∧ NoDup (register.registered_clients st).*1
  ∧ NoDup (register.registered_servers st).*1
  ∧ (∀ name client,
       register.get_client name st = Client.model_dump client
       ↔ (name, client) ∈ register.registered_clients st).
Proof.
  intros st.
  assert (register.directories_ok st) as (Hcl & Hsv & Hndc & Hnds).
  { apply run_directories_ok, initial_directories_ok. }
  split_and!; try done.
  intros name client. rewrite <- (getitem_elem_of _ _ _ Hndc).
  unfold register.get_client.
  destruct (getitem name (register.registered_clients st)) as [c|]; split.
  - destruct c, client. by intros [= -> -> ->].
  - by intros [= ->].
  - by destruct client.
  - done.
Qed.

(** X14. The register does not forget a monitor and does not reorder
    them: the monitor that was announced first stays first, whatever
    arrives later, a new announcement of itself or of others included.  So
    every later [CLIENT_REGIST] with a valid client is answered with the
    address of that first monitor. *)
Theorem register_first_monitor_stays (L : Lib)
    (evs more : list register.event) :
  let st := register.run L register.initial evs in
  let st' := register.run L st more in
  ∀ k server rest,
    register.registered_servers st = (k, server) :: rest →
    server = Server.mk None k
    ∧ (∃ rest', register.registered_servers st' = (k, server) :: rest'
                ∧ (length rest ≤ length rest')%nat)
    ∧ (∀ ws command_data contents client,
         ws ∈ register.endpoints st' →
         Command.validate command_data
           = Ok (Command.mk CommandType.CLIENT_REGIST contents) →
         Client.validate L (dict_get "client" contents) = Ok client →
         register.sent
           (register.step L st' (register.Receive ws (Some command_data)))
         = register.sent st' ++ [(ws, JDict [("id", JNull); ("ip", JStr k)])]).
Proof.
  intros st st' k server rest Hhead.
  assert (register.directories_ok st) as (_ & Hsv & _).
  { apply run_directories_ok, initial_directories_ok. }
  assert (server = Server.mk None k) as ->.
  { apply Hsv. rewrite Hhead. by left. }
  assert (∃ rest', register.registered_servers st'
                   = (k, Server.mk None k) :: rest'
                   ∧ (length rest ≤ length rest')%nat) as (rest' & Hst' & Hlen).
  { subst st'. clear Hsv. generalize dependent rest. generalize st.
    induction more as [|e more IH]; intros st0 rest Hhead.
    - exists rest. by split.
    - unfold register.run in *. simpl.
      destruct (step_registered_servers L st0 e) as [Heq|(ip & Heq)].
      + apply IH. by rewrite Heq.
      + rewrite Hhead in Heq.
        destruct (setitem_head ip (Server.mk None ip) k (Server.mk None k)
                    rest) as (d' & Hd' & Hlen').
        rewrite Hd' in Heq.
        assert ((if decide (k = ip) then Server.mk None ip
                 else Server.mk None k) = Server.mk None k) as Hsame
          by (case_decide; by subst).
        rewrite Hsame in Heq.
        destruct (IH (register.step L st0 e) d' Heq) as (rest' & ? & ?).
        exists rest'. split; [done|lia]. }
  split_and!; [done|by exists rest'|].
  intros ws command_data contents client Hws Hcmd Hcl. simpl.
  rewrite decide_True by done.
  rewrite (receive_client_regist L _ _ _ _ _ Hcmd Hcl). simpl.
  by rewrite Hst'.
Qed.

Lemma register_first_monitor_stays_witness :
  let online ip := frame (Command.create_server_online (Server.mk None ip)) in
  let evs := [register.Accept; register.Receive 0 (online "10.0.0.7")] in
  let more := [register.Receive 0 (online "10.0.0.8");
               register.Receive 0 (online "10.0.0.7")] in
  ∃ rest',
    register.registered_servers
      (register.run strict_lib
         (register.run strict_lib register.initial evs) more)
    = ("10.0.0.7", Server.mk None "10.0.0.7") :: rest'
    ∧ (0 ≤ length rest')%nat.
Proof.
  intros online evs more.
  exact (proj1 (proj2 (register_first_monitor_stays strict_lib evs more
                         "10.0.0.7" (Server.mk None "10.0.0.7") []
                         eq_refl))).
Defined.

(** Two monitors announce themselves, the first one again, and an agent
    registers: it is sent to the first. *)
Example register_hands_out_first_monitor :
  let online ip := frame (Command.create_server_online (Server.mk None ip)) in
  let agent := Client.mk "3F2A9C1B" "127.0.0.1" true in
  register.sent
    (register.run strict_lib register.initial
       [register.Accept;
        register.Receive 0 (online "10.0.0.7");
        register.Receive 0 (online "10.0.0.8");
        register.Receive 0 (online "10.0.0.7");
        register.Receive 0 (frame (Command.create_client_register agent))])
  = [(0, JDict [("id", JNull); ("ip", JStr "10.0.0.7")])].
Proof. by vm_compute. Qed.

(** X15. What [GET /client/{name}] answers after a registration: a
    [CLIENT_REGIST] or [CLIENT_ONLINE] with a valid client makes the
    endpoint answer that client for its name and leaves the answers for
    other names as they were; a name that no message has announced since
    the start gets the error. *)
Theorem register_get_client_after_registration (L : Lib)
    (st : register.state) (ws : nat) (command_data : json) (ty : string)
    (contents : list (string * json)) (client : Client.t) :
  ws ∈ register.endpoints st →
  Command.validate command_data = Ok (Command.mk ty contents) →
  ty = CommandType.CLIENT_REGIST ∨ ty = CommandType.CLIENT_ONLINE →
  Client.validate L (dict_get "client" contents) = Ok client →
  let st' := register.step L st (register.Receive ws (Some command_data)) in
  register.get_client (Client.name client) st' = Client.model_dump client
  ∧ (∀ other, other ≠ Client.name client →
              register.get_client other st' = register.get_client other st)
  ∧ (∀ evs name,
       (∀ e, e ∈ evs → register.announced L e ≠ Some name) →
       register.get_client name (register.run L register.initial evs)
       = JDict [("error", JStr "Client not found")]).
Proof.
  intros Hws Hcmd Hty Hcl st'.
  assert (register.registered_clients st'
          = setitem (Client.name client) client
              (register.registered_clients st)) as Hreg.
  { subst st'. simpl. rewrite decide_True by done.
    unfold register.receive, register.process. simpl. rewrite Hcmd. simpl.
    destruct Hty as [->| ->]; simpl; rewrite Hcl; simpl; [|done].
    by destruct (register.registered_servers st) as [|[??]?]. }
  unfold register.get_client. rewrite Hreg. split_and!.
  - by rewrite getitem_setitem.
  - intros other Hne. by rewrite getitem_setitem_ne.
  - intros evs name Hevs.
    by rewrite (run_registered_clients L register.initial evs name Hevs).
Qed.

Lemma register_get_client_after_registration_witness :
  let agent := Client.mk "3F2A9C1B" "127.0.0.1" true in
  let st := register.run strict_lib register.initial [register.Accept] in
  let st' := register.step strict_lib st
               (register.Receive 0
                  (frame (Command.create_client_register agent))) in
  register.get_client "3F2A9C1B" st'
  = JDict [("name", JStr "3F2A9C1B"); ("ip", JStr "127.0.0.1");
           ("online", JBool true)].
Proof.
  intros agent st st'.
  refine (proj1 (register_get_client_after_registration strict_lib st 0
                   (Command.model_dump (Command.create_client_register agent))
                   CommandType.CLIENT_REGIST
                   [("client", Client.model_dump agent)] agent _ _ _ _)).
  - vm_compute. set_solver.
  - reflexivity.
  - by left.
  - reflexivity.
Defined.

(** X16. In every state the register can reach, the manager's list holds
    each channel once and holds exactly the channels whose endpoint is
    running; so the [remove] of the disconnect handler finds its channel,
    and the channel is gone from the list afterwards. *)
Theorem register_manager_tracks_endpoints (L : Lib)
    (evs : list register.event) :
  let st := register.run L register.initial evs in
  NoDup (register.active_connections st)
  ∧ (∀ ws, ws ∈ register.active_connections st ↔ ws ∈ register.endpoints st)
  ∧ (∀ ws,
       ws ∈ register.endpoints st →
       ∃ conns, list_remove ws (register.active_connections st) = Ok conns
                ∧ (ws ∉ conns)
                ∧ register.active_connections
                    (register.step L st (register.Disconnect ws)) = conns).
Proof.
  intros st.
  assert (register.channels_ok st) as (Hnd & Hlive & _).
  { apply register_run_channels_ok, register_initial_channels_ok. }
  split_and!; [done|done|].
  intros ws Hws.
  destruct (list_remove_elem ws (register.active_connections st))
    as [conns Hrm]; [by apply Hlive|].
  exists conns. split_and!; [done| |].
  - destruct (list_remove_NoDup _ _ _ Hnd Hrm) as [_ Hmem].
    rewrite Hmem. naive_solver.
  - simpl. rewrite decide_True by done. unfold register.disconnect.
    by rewrite Hrm.
Qed.

(** ** [broadcast] *)

Lemma list_remove_middle x pre rest :
  x ∉ pre → list_remove x (pre ++ x :: rest) = Ok (pre ++ rest).
Proof.
  induction pre as [|y pre IH]; simpl.
  - intros _. by rewrite decide_True.
  - intros [Hne Hx]%not_elem_of_cons.
    rewrite decide_False by done. by rewrite IH.
Qed.

Section broadcast.
Context (accepts : nat → bool) (message : json).
Import register.

(** The loop by position, started behind a prefix that it has passed, does
    what the walk does on the rest of the list. *)
Lemma broadcast_loop_walk turns pre rest out :
  NoDup (pre ++ rest) → (length rest ≤ turns)%nat →
  broadcast_loop turns accepts message (length pre) (pre ++ rest) out
  = (pre ++ (broadcast_walk accepts message rest).1,
     out ++ (broadcast_walk accepts message rest).2).
Proof.
  revert pre rest out. induction turns as [|turns IH]; intros pre rest out.
  - intros _ Hlen. destruct rest; [|simpl in Hlen; lia].
    simpl. by rewrite !app_nil_r.
  - intros Hnd Hlen. destruct rest as [|c rest]; simpl.
    + rewrite app_nil_r, lookup_ge_None_2 by done. by rewrite !app_nil_r.
    + rewrite list_lookup_middle by done.
      simpl in Hlen.
      destruct (accepts c) eqn:Hc.
      * specialize (IH (pre ++ [c]) rest (out ++ [(c, message)])).
        rewrite length_app, <- app_assoc in IH. simpl in IH.
        rewrite Nat.add_1_r in IH. rewrite IH; [|done|lia].
        destruct (broadcast_walk accepts message rest) as [kept o]. simpl.
        by rewrite <- !app_assoc.
      * assert (c ∉ pre) as Hpre.
        { apply NoDup_app in Hnd as (_ & Hdisj & _).
          intros Hin. apply (Hdisj c Hin). by left. }
        rewrite list_remove_middle by done.
        assert (NoDup (pre ++ rest)) as Hnd'.
        { apply NoDup_app in Hnd as (Hp & Hdisj & Hr%NoDup_cons).
          apply NoDup_app. split_and!; [done| |by destruct Hr].
          intros x Hx Hx'. apply (Hdisj x Hx). by right. }
        destruct rest as [|d rest].
        -- rewrite app_nil_r. destruct turns; simpl; [by rewrite !app_nil_r|].
           rewrite lookup_ge_None_2 by lia. by rewrite !app_nil_r.
        -- specialize (IH (pre ++ [d]) rest out).
           rewrite length_app, <- app_assoc in IH. simpl in IH.
           rewrite Nat.add_1_r in IH. simpl in Hlen.
           rewrite IH; [|done|lia].
           destruct (broadcast_walk accepts message rest) as [kept o]. simpl.
           by rewrite <- !app_assoc.
Qed.

Lemma broadcast_walk_all conns :
  (∀ c, c ∈ conns → accepts c = true) →
  broadcast_walk accepts message conns
  = (conns, (λ c, (c, message)) <$> conns).
Proof.
  induction conns as [|c conns IH]; intros Hall; [done|]. simpl.
  rewrite Hall by (by left). rewrite IH; [done|].
  intros c' Hc'. apply Hall. by right.
Qed.

(** The walk keeps every channel that accepts, and sends to no channel
    that it drops and to none twice. *)
Lemma broadcast_walk_keeps n conns :
  (length conns ≤ n)%nat →
  (∀ c, c ∈ conns → accepts c = true →
        c ∈ (broadcast_walk accepts message conns).1)
  ∧ (∀ c, c ∈ (broadcast_walk accepts message conns).1 → c ∈ conns)
  ∧ (broadcast_walk accepts message conns).2.*1
    `sublist_of` (broadcast_walk accepts message conns).1.
Proof.
  revert conns. induction n as [|n IH]; intros conns Hlen.
  - destruct conns; [|simpl in Hlen; lia]. simpl. split_and!; try done.
  - destruct conns as [|c conns]; [simpl; by split_and!|]. simpl in Hlen.
    simpl. destruct (accepts c) eqn:Hc.
    + destruct (IH conns) as (Hkeep & Hsub & Hout); [lia|].
      destruct (broadcast_walk accepts message conns) as [kept o]. simpl in *.
      split_and!.
      * intros c' [->|Hc']%elem_of_cons Hacc; [by left|]. right.
        by apply Hkeep.
      * intros c' [->|Hc']%elem_of_cons; [by left|]. right. by apply Hsub.
      * by apply sublist_skip.
    + destruct conns as [|d conns].
      * simpl. split_and!;
          [intros c' ->%list_elem_of_singleton ?; congruence
          |by intros c' ?%elem_of_nil|done].
      * simpl in Hlen. destruct (IH conns) as (Hkeep & Hsub & Hout); [lia|].
        destruct (broadcast_walk accepts message conns) as [kept o].
        simpl in *. split_and!.
        -- intros c' [->|[->|Hc']%elem_of_cons]%elem_of_cons Hacc;
             [congruence|by left|]. right. by apply Hkeep.
        -- intros c' [->|Hc']%elem_of_cons; [right; by left|].
           right. right. by apply Hsub.
        -- by apply sublist_cons.
Qed.
End broadcast.

(** X17. [broadcast] on the channels of any state the register can reach,
    with no other task running in between.  A channel that takes the message
    stays in the list; a channel whose send fails is removed, and the
    channel that followed it in the list is passed over: it gets no message
    and is not tried.  When every send succeeds the list is unchanged and
    each channel gets the message once, in the order of the list. *)
Theorem broadcast_passes_over_after_failure (L : Lib)
    (evs : list register.event) (accepts : nat → bool) (message : json) :
  let st := register.run L register.initial evs in
  let st' := register.broadcast accepts message st in
  let walk := register.broadcast_walk accepts message
                (register.active_connections st) in
  register.active_connections st' = walk.1
  ∧ register.sent st' = register.sent st ++ walk.2
  ∧ (∀ c, c ∈ register.active_connections st → accepts c = true →
          c ∈ register.active_connections st')
  ∧ (∀ c, c ∈ register.active_connections st' →
          c ∈ register.active_connections st)
  ∧ walk.2.*1 `sublist_of` register.active_connections st'
  ∧ ((∀ c, c ∈ register.active_connections st → accepts c = true) →
       register.active_connections st' = register.active_connections st
       ∧ register.sent st'
         = register.sent st
           ++ ((λ c, (c, message)) <$> register.active_connections st))
  ∧ register.registered_clients st' = register.registered_clients st
  ∧ register.registered_servers st' = register.registered_servers st.
Proof.
  intros st st' walk.
  assert (register.channels_ok st) as (Hnd & _ & _).
  { apply register_run_channels_ok, register_initial_channels_ok. }
  pose proof (broadcast_loop_walk accepts message
                (length (register.active_connections st)) []
                (register.active_connections st) [] Hnd (le_n _)) as Hloop.
  simpl in Hloop.
  assert (register.active_connections st' = walk.1
          ∧ register.sent st' = register.sent st ++ walk.2
          ∧ register.registered_clients st' = register.registered_clients st
          ∧ register.registered_servers st' = register.registered_servers st)
    as (Hconns & Hsent & Hcl & Hsv).
  { subst st'. unfold register.broadcast. by rewrite Hloop. }
  destruct (broadcast_walk_keeps accepts message _
              (register.active_connections st) (le_n _))
    as (Hkeep & Hsub & Hout).
  rewrite Hconns, Hsent. split_and!; try done.
  intros Hall. subst walk.
  by rewrite (broadcast_walk_all accepts message _ Hall).
Qed.

(** Channel 0 is dead: it is removed, and channel 1 behind it gets nothing;
    channel 2 gets the message. *)
Example broadcast_skips_channel :
  let st := register.run strict_lib register.initial
              [register.Accept; register.Accept; register.Accept] in
  let st' := register.broadcast (λ c, negb (c =? 0)%nat) (JStr "ping") st in
  register.active_connections st' = [1; 2]
  ∧ register.sent st' = [(2, JStr "ping")].
Proof. by vm_compute. Qed.

(** ** The agent: discovery and reports *)

Lemma Server_validate_dump L server :
  Server.validate L (Server.model_dump server) = Ok server.
Proof. by destruct server as [[z|] ip]. Qed.

(** X18. How [register_to_center] reads the reply.  The identity that
    the register dumps is read back as it was, and the telemetry address is
    built from its [ip] with port 10641.  The error payload of the register
    is a reply too: it has no [ip], so the agent raises instead of taking a
    server; so does a text that is not JSON.  A refused connection and a
    channel closed without reply raise as well. *)
Theorem register_to_center_reads_reply (L : Lib) :
  (∀ server,
     client.register_to_center L
       (client.Replied (Some (Server.model_dump server)))
     = client.Discovered server ("ws://" +:+ Server.ip server +:+ ":10641/ws"))
  ∧ (∀ e,
       client.register_to_center L (client.Replied (Some (error_payload e)))
       = client.ReplyError (ValidationError "Server" "ip"))
  ∧ client.register_to_center L (client.Replied None)
    = client.ReplyError JSONDecodeError
  ∧ client.register_to_center L client.Refused = client.TransportError
  ∧ client.register_to_center L client.ClosedSilent = client.TransportError.
Proof.
  split_and!; try done.
  intros server. unfold client.register_to_center. simpl.
  by rewrite Server_validate_dump.
Qed.

(** X19. The handshake.  A register that knows no monitor receives the
    announcement of the monitor and then the registration of an agent.  The
    agent gets one reply, reads from it a server at 127.0.0.1 and takes
    [ws://127.0.0.1:10641/ws] as telemetry address, whatever the sockets of
    the two hosts said: [get_local_ip] answers 127.0.0.1 in either case.
    The register lists the agent under its name, online, at 127.0.0.1. *)
Theorem discovery_handshake (L : Lib) (st : register.state)
    (monitor agent : nat) (monitor_probe agent_probe : result string)
    (name : string) :
  monitor ∈ register.endpoints st →
  agent ∈ register.endpoints st →
  register.registered_servers st = [] →
  let announce := register.Receive monitor
                    (client.server_registration monitor_probe) in
  let regist := register.Receive agent
                  (frame (Command.create_client_register
                            (client.local_client name agent_probe))) in
  let st' := register.run L st [announce; regist] in
  ∃ reply,
    register.sent st' = register.sent st ++ [(agent, reply)]
    ∧ client.register_to_center L (client.Replied (Some reply))
      = client.Discovered (Server.mk None "127.0.0.1")
          "ws://127.0.0.1:10641/ws"
    ∧ register.get_client name st'
      = Client.model_dump (Client.mk name "127.0.0.1" true).
Proof.
  intros Hmon Hagent Hnone announce regist st'.
  assert (SystemInfo.get_local_ip monitor_probe = "127.0.0.1") as Hm
    by (by destruct monitor_probe).
  assert (SystemInfo.get_local_ip agent_probe = "127.0.0.1") as Ha
    by (by destruct agent_probe).
  subst st' announce regist. unfold register.run. simpl.
  unfold client.server_registration, client.local_client. rewrite Hm, Ha.
  destruct (decide (monitor ∈ register.endpoints st)); [|done].
  rewrite receive_server_online. simpl.
  rewrite decide_True by done.
  rewrite (receive_client_regist L _ _
             (Command.model_dump
                (Command.create_client_register
                   (Client.mk name "127.0.0.1" true)))
             [("client", Client.model_dump (Client.mk name "127.0.0.1" true))]
             (Client.mk name "127.0.0.1" true)); [|done|done].
  simpl. rewrite Hnone. simpl.
  exists (JDict [("id", JNull); ("ip", JStr "127.0.0.1")]).
  split_and!; [done|done|].
  unfold register.get_client. simpl. by rewrite getitem_setitem.
Qed.

Lemma discovery_handshake_witness :
  let st := register.run strict_lib register.initial
              [register.Accept; register.Accept] in
  let st' := register.run strict_lib st
               [register.Receive 0
                  (client.server_registration (Ok "192.168.1.20"));
                register.Receive 1
                  (frame (Command.create_client_register
                            (client.local_client "3F2A9C1B"
                               (Raise ValueError))))] in
  ∃ reply,
    register.sent st' = register.sent st ++ [(1, reply)]
    ∧ client.register_to_center strict_lib (client.Replied (Some reply))
      = client.Discovered (Server.mk None "127.0.0.1")
          "ws://127.0.0.1:10641/ws"
    ∧ register.get_client "3F2A9C1B" st'
      = Client.model_dump (Client.mk "3F2A9C1B" "127.0.0.1" true).
Proof.
  intros st.
  apply (discovery_handshake strict_lib st 0 1 (Ok "192.168.1.20")
           (Raise ValueError) "3F2A9C1B").
  - vm_compute. set_solver.
  - vm_compute. set_solver.
  - reflexivity.
Defined.

Section agent_reports.
Context (L : Lib) (client_name : string).
Import client.

(** A step emits nothing, or it is the report task resumed with a reading
    of the host, and it emits the report made of that reading. *)
Lemma step_emitted st e :
  emitted (step L client_name st e) = emitted st
  ∨ ∃ o h sample,
      e = Resume o (Some h)
      ∧ running st = true
      ∧ Report.validate L (SystemInfo.get_system_report h client_name)
        = Ok sample
      ∧ emitted (step L client_name st e)
        = emitted st ++ [frame (Command.create_client_report L sample)].
Proof.
  destruct e as [| | |o h| |]; simpl.
  - left. destruct (parent st); [|done|done]. by destruct (running st).
  - left. by destruct (parent st).
  - left. by destruct (parent st).
  - unfold resume. destruct (done (report st)); [by left|].
    destruct (must_cancel st); [by left|].
    assert (emitted (iteration L client_name h st) = emitted st
            ∨ ∃ h' sample,
                h = Some h' ∧ running st = true
                ∧ Report.validate L
                    (SystemInfo.get_system_report h' client_name) = Ok sample
                ∧ emitted (iteration L client_name h st)
                  = emitted st
                    ++ [frame (Command.create_client_report L sample)])
      as [Hit|(h' & sample & -> & Hrun & Hv & Hit)].
    { unfold iteration. destruct (running st) eqn:Hrun; [|by left].
      destruct h as [h'|]; [|by left].
      destruct (Report.validate L _) as [sample|] eqn:Hv; [|by left].
      right. by exists h', sample. }
    + left. destruct (report st); try done. by destruct o.
    + destruct (report st) eqn:Hrep; try (right; by exists o, h', sample).
      left. by destruct o.
  - left. destruct (parent st); [done| |done]. by destruct (done (report st)).
  - by left.
Qed.

Lemma step_running st e :
  running st = false → running (step L client_name st e) = false.
Proof.
  intros Hrun. destruct e as [| | |o h| |]; simpl; try done.
  - destruct (parent st); [|done|done]. by rewrite Hrun.
  - by destruct (parent st).
  - by destruct (parent st).
  - unfold resume, iteration. rewrite Hrun.
    destruct (done (report st)); [done|].
    destruct (must_cancel st); [done|].
    destruct (report st); try done. by destruct o.
  - destruct (parent st); [done| |done]. by destruct (done (report st)).
Qed.
End agent_reports.

(** X20. Every frame that the report task emits in the Streaming state is
    a [CLIENT_REPORT] made of a reading of the host: it carries the name of
    the agent and none of the six memory and disk figures.  There are no
    more frames than the task was resumed. *)
Theorem agent_emits_own_reports (L : Lib) (client_name : string)
    (evs : list client.event) :
  let st := client.run L client_name client.streaming evs in
  (∀ text, text ∈ client.emitted st →
     ∃ h report,
       Report.validate L (SystemInfo.get_system_report h client_name)
         = Ok report
       ∧ text = frame (Command.create_client_report L report)
       ∧ Report.name report = client_name
       ∧ Report.memory_total report = None
       ∧ Report.memory_used report = None
       ∧ Report.memory_percent report = None
       ∧ Report.disk_total report = None
       ∧ Report.disk_used report = None
       ∧ Report.disk_percent report = None)
  ∧ (length (client.emitted st) ≤ length evs)%nat.
Proof.
  intros st. subst st.
  assert (∀ st0,
    (∀ text, text ∈ client.emitted st0 →
       ∃ h report,
         Report.validate L (SystemInfo.get_system_report h client_name)
           = Ok report
         ∧ text = frame (Command.create_client_report L report)) →
    (∀ text, text ∈ client.emitted (client.run L client_name st0 evs) →
       ∃ h report,
         Report.validate L (SystemInfo.get_system_report h client_name)
           = Ok report
         ∧ text = frame (Command.create_client_report L report))
    ∧ (length (client.emitted (client.run L client_name st0 evs))
       ≤ length (client.emitted st0) + length evs)%nat) as Hgen.
  { induction evs as [|e evs IH]; intros st0 Hst0.
    - split; [done|]. unfold client.run. simpl. lia.
    - unfold client.run in *. simpl.
      destruct (step_emitted L client_name st0 e)
        as [Heq|(o & h & report & -> & _ & Hv & Heq)].
      + destruct (IH (client.step L client_name st0 e)) as [Hall Hlen].
        { by rewrite Heq. }
        split; [done|]. rewrite Heq in Hlen. lia.
      + destruct (IH (client.step L client_name st0 (client.Resume o (Some h))))
          as [Hall Hlen].
        { rewrite Heq. intros text [Hin| ->%list_elem_of_singleton]%elem_of_app;
            [by apply Hst0|]. by exists h, report. }
        split; [done|]. rewrite Heq, length_app in Hlen. simpl in *. lia. }
  destruct (Hgen client.streaming) as [Hall Hlen].
  { by intros text ?%elem_of_nil. }
  split; [|done].
  intros text Htext. destruct (Hall text Htext) as (h & report & Hv & ->).
  exists h, report.
  destruct (collector_omits_metrics L h client_name report Hv)
    as (H1 & H2 & H3 & H4 & H5 & H6).
  split_and!; try done.
  apply Report_validate_inv in Hv as (Hname & _).
  rewrite (required_str_get _ "name" _ client_name) in Hname by done.
  by injection Hname.
Qed.

(** X21. After [stop()] the agent emits no report: the flag stays down,
    the report task returns the next time it wakes from its sleep, and
    whatever the event loop does afterwards the frames are those emitted
    before. *)
Theorem stopped_agent_emits_nothing (L : Lib) (client_name : string)
    (st : client.state) (evs : list client.event) :
  client.running st = false →
  client.emitted (client.run L client_name st evs) = client.emitted st
  ∧ client.running (client.run L client_name st evs) = false
  ∧ (∀ o h, client.report st = client.Sleeping →
            client.must_cancel st = false →
            client.report (client.step L client_name st (client.Resume o h))
            = client.Returned).
Proof.
  intros Hrun. split_and!.
  - revert st Hrun. induction evs as [|e evs IH]; intros st Hrun; [done|].
    unfold client.run in *. simpl.
    rewrite IH by (by apply step_running).
    destruct (step_emitted L client_name st e)
      as [Heq|(o & h & report & _ & Hon & _)]; [done|congruence].
  - revert st Hrun. induction evs as [|e evs IH]; intros st Hrun; [done|].
    unfold client.run in *. simpl. apply IH. by apply step_running.
  - intros o h Hrep Hmc. simpl. unfold client.resume, client.iteration.
    by rewrite Hrep, Hmc, Hrun.
Qed.

Lemma stopped_agent_emits_nothing_witness :
  let h := SystemInfo.mk "x86_64Linux6.1" (S754_finite false 3 (-2))
             (Some 8%Z) 1700000000000%Z in
  let st := client.run strict_lib "3F2A9C1B" client.streaming
              [client.Resume client.Completed (Some h);
               client.Resume client.Completed (Some h); client.Stop] in
  length (client.emitted st) = 1%nat
  ∧ client.emitted
      (client.run strict_lib "3F2A9C1B" st
         [client.Resume client.Completed (Some h);
          client.Resume client.Completed (Some h); client.Recv])
    = client.emitted st.
Proof.
  intros h st. split; [reflexivity|].
  exact (proj1 (stopped_agent_emits_nothing strict_lib "3F2A9C1B" st
                  [client.Resume client.Completed (Some h);
                   client.Resume client.Completed (Some h); client.Recv]
                  eq_refl)).
Defined.

(** ** The two transitions of a session *)

Section transitions.
Context (L : Lib).
Import server.

(** What [receive] does on a [CLIENT_ONLINE] whose client decodes. *)
Lemma receive_client_online st ws command_data contents client now :
  Command.validate command_data
    = Ok (Command.mk CommandType.CLIENT_ONLINE contents) →
  Client.validate L (dict_get "client" contents) = Ok client →
  receive L ws (Some command_data) now st
  = mk (<[Client.name client := client]> (registered_clients st))
       (without (Client.name client) (offline_clients st))
       (active_connections st)
       (<[ws := Some (Client.name client)]> (endpoints st))
       (next_websocket st)
       (ClientDAO.create_or_update (clients st) (Client.name client)
          (Client.ip client) true now)
       (records st) (sent st)
       (log st ++
        [(INFO, "Received message");
         (INFO, "Updated client " +:+ Client.name client +:+ " in database");
         (INFO, "Client online: " +:+ Client.name client)]).
Proof.
  intros Hcmd Hcl. unfold receive, process. simpl. rewrite Hcmd. simpl.
  unfold client_online. rewrite Hcl. simpl.
  unfold logging, with_cache, with_channels, with_clients. simpl.
  by rewrite <- !app_assoc.
Qed.
End transitions.

(** X22. Connecting to Online.  A [CLIENT_ONLINE] with a valid client, on
    a channel with a running endpoint, makes the channel carry the name of
    the client, puts the client as sent into [registered_clients], removes
    its name from the offline list, and writes the row of the name with the
    address of the client, seen now and online: the table says online even
    when the flag that was sent says otherwise.  A reader of [GET /clients]
    sees the agent.  Nothing is sent back and no sample is stored. *)
Theorem client_online_brings_agent_online (L : Lib) (st : server.state)
    (ws : nat) (client_name : option string) (command_data : json)
    (contents : list (string * json)) (client : Client.t)
    (utcnow : datetime) :
  server.endpoints st !! ws = Some client_name →
  Command.validate command_data
    = Ok (Command.mk CommandType.CLIENT_ONLINE contents) →
  Client.validate L (dict_get "client" contents) = Ok client →
  let st' := server.step L st (server.Receive ws (Some command_data) utcnow)
  in
  server.endpoints st' !! ws = Some (Some (Client.name client))
  ∧ server.registered_clients st' !! Client.name client = Some client
  ∧ (∀ c, c ∈ server.offline_clients st' →
          Client.name c ≠ Client.name client)
  ∧ (∃ row, server.clients st' !! Client.name client = Some row
            ∧ DBClient.ip row = Client.ip client
            ∧ DBClient.online row = true
            ∧ DBClient.last_seen row = utcnow)
  ∧ server.listed_online st' (Client.name client)
  ∧ server.sent st' = server.sent st
  ∧ server.records st' = server.records st
  ∧ server.active_connections st' = server.active_connections st.
Proof.
  intros Hws Hcmd Hcl st'. subst st'. simpl. rewrite Hws.
  rewrite (receive_client_online L _ _ _ _ _ _ Hcmd Hcl). simpl.
  assert (∃ row, ClientDAO.create_or_update (server.clients st)
                   (Client.name client) (Client.ip client) true utcnow
                 !! Client.name client = Some row
            ∧ DBClient.ip row = Client.ip client
            ∧ DBClient.online row = true
            ∧ DBClient.last_seen row = utcnow) as (row & Hrow & Hip & Hon & Hseen).
  { unfold ClientDAO.create_or_update.
    destruct (server.clients st !! Client.name client);
      rewrite lookup_insert_eq; by eexists. }
  split_and!; try done.
  - by rewrite lookup_insert_eq.
  - by rewrite lookup_insert_eq.
  - by intros c [Hne _]%list_elem_of_filter.
  - by exists row.
  - apply listed_online_stored. by exists row.
Qed.

Lemma client_online_brings_agent_online_witness :
  let agent := Client.mk "3F2A9C1B" "127.0.0.1" false in
  let st := server.run strict_lib server.initial [server.Accept] in
  let st' := server.step strict_lib st
               (server.Receive 0 (frame (Command.create_client_online agent))
                  7%Z) in
  server.registered_clients st' !! "3F2A9C1B" = Some agent
  ∧ server.listed_online st' "3F2A9C1B".
Proof.
  intros agent st st'.
  pose proof (client_online_brings_agent_online strict_lib st 0 None
                (Command.model_dump (Command.create_client_online agent))
                [("client", Client.model_dump agent)] agent 7%Z
                eq_refl eq_refl eq_refl) as (_ & Hreg & _ & _ & Hon & _).
  by split.
Defined.

(** X23. Online to Offline.  In a state the monitor can reach, the end of
    a channel that carries a name which is not empty and is in
    [registered_clients] ends the endpoint, takes the channel off the
    manager's list, clears the flag of the entry in [registered_clients]
    and appends that entry to the offline list, and clears the flag of the
    row; the agent is not removed: [GET /clients] no longer lists it and
    [GET /alert] does.  Other rows are untouched, nothing is sent and no
    sample is stored. *)
Theorem disconnect_marks_agent_offline (L : Lib) (evs : list server.event)
    (ws : nat) (name : string) (client : Client.t) :
  let st := server.run L server.initial evs in
  server.endpoints st !! ws = Some (Some name) →
  name ≠ "" →
  server.registered_clients st !! name = Some client →
  let st' := server.step L st (server.Disconnect ws) in
  server.endpoints st' !! ws = None
  ∧ (ws ∉ server.active_connections st')
  ∧ server.registered_clients st' !! name
    = Some (Client.set_online false client)
  ∧ server.offline_clients st'
    = server.offline_clients st ++ [Client.set_online false client]
  ∧ ¬ server.listed_online st' name
  ∧ name ∈ (λ c, c.1.1) <$> server.get_offline_clients st'
  ∧ (∀ other, other ≠ name →
              server.clients st' !! other = server.clients st !! other)
  ∧ server.sent st' = server.sent st
  ∧ server.records st' = server.records st.
Proof.
  intros st Hws Hname Hclient st'.
  assert (server.channels_ok st) as (Hnd & Hlive & _).
  { apply run_channels_ok, initial_channels_ok. }
  assert (ws ∈ server.active_connections st) as Hin by (apply Hlive; eauto).
  destruct (disconnect_view ws (Some name) st Hin)
    as (Hrm & _ & Hep & Hrec & Hsent & Hv).
  assert (server.truthy (Some name) = Some name) as Ht
    by (by apply truthy_Some).
  rewrite Ht, Hclient in Hv. destruct Hv as (Hreg & Hoff & Hcl).
  assert (st' = server.disconnect ws (Some name) st) as ->.
  { subst st'. simpl. by rewrite Hws. }
  destruct (list_remove_NoDup _ _ _ Hnd Hrm) as [_ Hmem].
  split_and!; try done.
  - rewrite Hep. apply lookup_delete_eq.
  - rewrite Hmem. naive_solver.
  - rewrite Hreg. apply lookup_insert_eq.
  - rewrite listed_online_stored. intros (row & Hrow & Hon).
    rewrite Hcl in Hrow. apply set_offline_lookup in Hrow. congruence.
  - destruct (get_offline_clients_spec
                (server.disconnect ws (Some name) st)) as (_ & _ & Hal).
    assert (server.cache_ok st) as [_ Hkeyed]
      by apply run_cache_ok, initial_cache_ok.
    destruct (Hkeyed name client Hclient) as [Hkey _].
    apply Hal. right. rewrite Hoff, fmap_app, elem_of_app. right.
    simpl. rewrite Hkey. by left.
  - intros other Hne. rewrite Hcl. by apply set_offline_lookup_ne.
Qed.

Lemma disconnect_marks_agent_offline_witness :
  let agent := Client.mk "3F2A9C1B" "127.0.0.1" true in
  let evs := [server.Accept;
              server.Receive 0 (frame (Command.create_client_online agent))
                7%Z] in
  let st' := server.step strict_lib
               (server.run strict_lib server.initial evs)
               (server.Disconnect 0) in
  server.offline_clients st' = [Client.mk "3F2A9C1B" "127.0.0.1" false]
  ∧ "3F2A9C1B" ∈ (λ c, c.1.1) <$> server.get_offline_clients st'.
Proof.
  intros agent evs st'.
  pose proof (disconnect_marks_agent_offline strict_lib evs 0 "3F2A9C1B"
                agent eq_refl) as H.
  destruct H as (_ & _ & _ & Hoff & _ & Halert & _); [done|reflexivity|].
  split; [exact Hoff|exact Halert].
Defined.

(** X24. Deleting an agent whose session is live, and then the end of
    that session.  In a state the monitor can reach, a channel carries a
    name that has a row; the agent is deleted and the channel ends.  The
    disconnect handler finds the name gone from [registered_clients] and
    records no offline transition: the agent has no row, no cache entry, is
    not in the offline list, and neither [GET /clients] nor [GET /alert]
    names it.  Its samples stay in the store. *)
Theorem deleted_agent_leaves_no_trace (L : Lib) (evs : list server.event)
    (ws : nat) (name : string) :
  let st := server.run L server.initial evs in
  server.endpoints st !! ws = Some (Some name) →
  is_Some (server.clients st !! name) →
  let st' := server.run L st [server.DeleteClient name; server.Disconnect ws]
  in
  server.endpoints st' !! ws = None
  ∧ server.clients st' !! name = None
  ∧ server.registered_clients st' !! name = None
  ∧ (∀ c, c ∈ server.offline_clients st' → Client.name c ≠ name)
  ∧ ¬ server.listed_online st' name
  ∧ (name ∉ (λ c, c.1.1) <$> server.get_offline_clients st')
  ∧ server.records st' = server.records st.
Proof.
  intros st Hws [row Hrow] st'.
  assert (server.channels_ok st) as (Hnd & Hlive & _).
  { apply run_channels_ok, initial_channels_ok. }
  assert (ws ∈ server.active_connections st) as Hin by (apply Hlive; eauto).
  set (st1 := server.step L st (server.DeleteClient name)).
  assert (st1 = server.logging INFO ("Client deleted: " +:+ name)
                  (server.with_cache
                     (delete name (server.registered_clients st))
                     (server.without name (server.offline_clients st))
                     (server.with_clients (delete name (server.clients st))
                        st))) as Hst1.
  { subst st1. simpl. unfold server.delete_client, ClientDAO.delete.
    by rewrite Hrow. }
  assert (server.endpoints st1 !! ws = Some (Some name)) as Hws1.
  { by rewrite Hst1. }
  assert (st' = server.disconnect ws (Some name) st1) as ->.
  { subst st'. unfold server.run. cbn [foldl]. fold st1.
    unfold server.step. by rewrite Hws1. }
  assert (ws ∈ server.active_connections st1) as Hin1 by (by rewrite Hst1).
  destruct (disconnect_view ws (Some name) st1 Hin1)
    as (_ & _ & Hep & Hrec & _ & Hv).
  assert (server.registered_clients st1 !! name = None) as Hgone.
  { rewrite Hst1. simpl. apply lookup_delete_eq. }
  assert (server.registered_clients (server.disconnect ws (Some name) st1)
          = server.registered_clients st1
          ∧ server.offline_clients (server.disconnect ws (Some name) st1)
            = server.offline_clients st1
          ∧ server.clients (server.disconnect ws (Some name) st1)
            = server.clients st1) as (Hreg & Hoff & Hcl).
  { destruct (server.truthy (Some name)) as [n|] eqn:Ht; [|done].
    apply truthy_Some in Ht as [[= <-] _]. by rewrite Hgone in Hv. }
  assert (server.clients st1 !! name = None) as Hnorow.
  { rewrite Hst1. simpl. apply lookup_delete_eq. }
  assert (∀ c, c ∈ server.offline_clients st1 → Client.name c ≠ name)
    as Hnotoff.
  { rewrite Hst1. simpl. by intros c [Hne _]%list_elem_of_filter. }
  split_and!.
  - rewrite Hep. apply lookup_delete_eq.
  - by rewrite Hcl.
  - by rewrite Hreg.
  - by rewrite Hoff.
  - rewrite listed_online_stored. intros (r & Hr & _). congruence.
  - destruct (get_offline_clients_spec
                (server.disconnect ws (Some name) st1)) as (_ & _ & Hal).
    rewrite Hal, Hcl, Hoff. intros [(r & Hr & _)|Hin']; [congruence|].
    apply list_elem_of_fmap in Hin' as (c & Hc & Hc').
    by apply (Hnotoff c Hc').
  - rewrite Hrec, Hst1. done.
Qed.

Lemma deleted_agent_leaves_no_trace_witness :
  let agent := Client.mk "3F2A9C1B" "127.0.0.1" true in
  let evs := [server.Accept;
              server.Receive 0 (frame (Command.create_client_online agent))
                7%Z] in
  let st' := server.run strict_lib
               (server.run strict_lib server.initial evs)
               [server.DeleteClient "3F2A9C1B"; server.Disconnect 0] in
  server.offline_clients st' = []
  ∧ server.clients st' !! "3F2A9C1B" = None
  ∧ "3F2A9C1B" ∉ (λ c, c.1.1) <$> server.get_offline_clients st'.
Proof.
  intros agent evs st'.
  pose proof (deleted_agent_leaves_no_trace strict_lib evs 0 "3F2A9C1B"
                eq_refl) as H.
  destruct H as (_ & Hrow & _ & _ & _ & Halert & _).
  { eexists. vm_compute. reflexivity. }
  split_and!; [by vm_compute|exact Hrow|exact Halert].
Defined.
